(** * Risk-detection dashboard: aggregation, filtering and table view model

    Shallow embedding of [src/utils/mockData.ts] ([calculateStats]),
    [src/components/EnterpriseTable.tsx] ([rawStats], [processedData],
    [handleSort]), [src/components/DailyReportTable.tsx] ([dailyData]) and
    the time-window filter [filteredData] of the application component.

    Modelling choices:
    - a JS [number] that holds a counter is a [Z]; the derived rates, which
      the code obtains by division, are rationals [Q];
    - [callTime] is the ISO string produced by [toISOString]; the code only
      ever uses it through [new Date(d.callTime)], so it is kept as the
      number of milliseconds since the epoch (UTC) that this parse yields;
    - the local time zone is a fixed offset [tz] in milliseconds;
    - a JS [Map] is an association list kept in insertion order, which is
      the iteration order of [Map.prototype.values]. *)

From Stdlib Require Import ZArith QArith List String Ascii Bool Lia.
From Stdlib Require Import Sorted Permutation Qround.
Import ListNotations.
Open Scope Z_scope.

(* ================================================================= *)
(** ** Data model ([types.ts]) *)

Module RiskLevel.
Inductive t := HIGH | MEDIUM | LOW | NORMAL.
End RiskLevel.

Module ReviewResult.
Inductive t := TRUE_FRAUD | SUSPECTED_FRAUD | ILLEGAL_BUSINESS
             | FALSE_POSITIVE | PENDING.
End ReviewResult.

Module ReviewStatus.
Inductive t := REVIEWED | PENDING.
End ReviewStatus.

Record RiskRecord := mkRiskRecord {
  id : string;
  enterpriseId : string;
  enterpriseName : string;
  customerNumber : string;
  callTime : Z;
  duration : Z;
  riskLevel : RiskLevel.t;
  fraudType : string;
  riskPoints : list string;
  reviewStatus : ReviewStatus.t;
  reviewResult : ReviewResult.t;
  reviewer : option string;
  count : option Z
}.

(** [record.count || 1]: an absent count, and also a count of [0] (which
    is falsy in JS), give [1]. *)
Definition count_or_one (c : option Z) : Z :=
  match c with
  | Some n => if n =? 0 then 1 else n
  | None => 1
  end.

Definition is_high (d : RiskRecord) : bool :=
  match riskLevel d with RiskLevel.HIGH => true | _ => false end.
Definition is_medium (d : RiskRecord) : bool :=
  match riskLevel d with RiskLevel.MEDIUM => true | _ => false end.
Definition is_low (d : RiskRecord) : bool :=
  match riskLevel d with RiskLevel.LOW => true | _ => false end.
Definition is_reviewed (d : RiskRecord) : bool :=
  match reviewStatus d with ReviewStatus.REVIEWED => true | _ => false end.
Definition result_is (r : ReviewResult.t) (d : RiskRecord) : bool :=
  match r, reviewResult d with
  | ReviewResult.TRUE_FRAUD, ReviewResult.TRUE_FRAUD
  | ReviewResult.SUSPECTED_FRAUD, ReviewResult.SUSPECTED_FRAUD
  | ReviewResult.ILLEGAL_BUSINESS, ReviewResult.ILLEGAL_BUSINESS
  | ReviewResult.FALSE_POSITIVE, ReviewResult.FALSE_POSITIVE
  | ReviewResult.PENDING, ReviewResult.PENDING => true
  | _, _ => false
  end.

(* ================================================================= *)
(** ** [calculateStats] ([src/utils/mockData.ts]) *)

(** The local [let] counters of the loop. *)
Record StatsAcc := mkAcc {
  total : Z; highRisk : Z; medRisk : Z; lowRisk : Z;
  highRiskReviewed : Z; mediumRiskReviewed : Z; reviewedTotal : Z;
  trueFraud : Z; suspFraud : Z; illegal : Z; falsePos : Z
}.

Definition acc0 : StatsAcc := mkAcc 0 0 0 0 0 0 0 0 0 0 0.

(** One iteration of [for (const d of data) { ... }]. *)
Definition stats_step (a : StatsAcc) (d : RiskRecord) : StatsAcc :=
  let n := count_or_one (count d) in
  let hi := if is_high d then n else 0 in
  let me := if is_high d then 0 else if is_medium d then n else 0 in
  let lo := if is_high d || is_medium d then 0 else if is_low d then n else 0 in
  let rv := is_reviewed d in
  let r := reviewResult d in
  mkAcc
    (total a + n)
    (highRisk a + hi)
    (medRisk a + me)
    (lowRisk a + lo)
    (highRiskReviewed a + if rv then hi else 0)
    (mediumRiskReviewed a + if rv then me else 0)
    (reviewedTotal a + if rv then n else 0)
    (trueFraud a +
       if rv then match r with ReviewResult.TRUE_FRAUD => n | _ => 0 end else 0)
    (suspFraud a +
       if rv then match r with ReviewResult.SUSPECTED_FRAUD => n | _ => 0 end else 0)
    (illegal a +
       if rv then match r with ReviewResult.ILLEGAL_BUSINESS => n | _ => 0 end else 0)
    (falsePos a +
       if rv then match r with ReviewResult.FALSE_POSITIVE => n | _ => 0 end else 0).

Record DashboardStats := mkStats {
  totalDetections : Z;
  highRiskCount : Z;
  mediumRiskCount : Z;
  lowRiskCount : Z;
  highRiskReviewedCount : Z;
  mediumRiskReviewedCount : Z;
  reviewedCount : Z;
  reviewCompletionRate : Q;
  highRiskRate : Q;
  trueFraudCount : Z;
  suspectedFraudCount : Z;
  illegalBusinessCount : Z;
  falsePositiveCount : Z;
  accuracyRate : Q
}.

Definition calculateStats (data : list RiskRecord) : DashboardStats :=
  let a := fold_left stats_step data acc0 in
  let validDetections := trueFraud a + suspFraud a + illegal a in
  let reviewTargetCount := highRisk a + medRisk a in
  let reviewedTargetCount := highRiskReviewed a + mediumRiskReviewed a in
  {| totalDetections := total a;
     highRiskCount := highRisk a;
     mediumRiskCount := medRisk a;
     lowRiskCount := lowRisk a;
     highRiskReviewedCount := highRiskReviewed a;
     mediumRiskReviewedCount := mediumRiskReviewed a;
     reviewedCount := reviewedTotal a;
     reviewCompletionRate :=
       if reviewTargetCount >? 0
       then (inject_Z reviewedTargetCount / inject_Z reviewTargetCount) * inject_Z 100
       else 0%Q;
     highRiskRate :=
       if total a >? 0
       then (inject_Z (highRisk a) / inject_Z (total a)) * inject_Z 100
       else 0%Q;
     trueFraudCount := trueFraud a;
     suspectedFraudCount := suspFraud a;
     illegalBusinessCount := illegal a;
     falsePositiveCount := falsePos a;
     accuracyRate :=
       if reviewedTotal a >? 0
       then (inject_Z validDetections / inject_Z (reviewedTotal a)) * inject_Z 100
       else 0%Q
  |}.

(* ================================================================= *)
(** ** JS [Map] keyed by strings, in insertion order *)

Section JsMap.
Context {V : Type}.

Definition map_has (m : list (string * V)) (k : string) : bool :=
  existsb (fun kv => String.eqb (fst kv) k) m.

Definition map_get (m : list (string * V)) (k : string) : option V :=
  option_map snd (find (fun kv => String.eqb (fst kv) k) m).

(** [map.set(k, v)] on a key that is not present appends the entry. *)
Definition map_set_new (m : list (string * V)) (k : string) (v : V) :=
  m ++ [(k, v)].

(** [const stats = map.get(k)!; stats.f += ...]: the object stored under
    [k] is mutated in place. *)
Definition map_mutate (m : list (string * V)) (k : string) (f : V -> V) :=
  map (fun kv => if String.eqb (fst kv) k then (fst kv, f (snd kv)) else kv) m.

Definition map_values (m : list (string * V)) : list V := map snd m.
End JsMap.

(* ================================================================= *)
(** ** [rawStats]: aggregation by enterprise ([EnterpriseTable.tsx]) *)

Module EnterpriseTable.

Record EnterpriseStat := mkEnterpriseStat {
  id : string;
  name : string;
  total : Z;
  high : Z;
  medium : Z;
  low : Z;
  trueFraud : Z;
  suspected : Z;
  illegal : Z;
  falsePositive : Z
}.

Definition new_stat (record : RiskRecord) : EnterpriseStat :=
  mkEnterpriseStat (enterpriseId record) (enterpriseName record) 0 0 0 0 0 0 0 0.

(** The body of [if (...) stats.x += count] for each counter; the tests
    are independent [if]s, not an [else if] chain. *)
Definition add_record (record : RiskRecord) (count : Z) (s : EnterpriseStat)
  : EnterpriseStat :=
  let rv := is_reviewed record in
  let inc (b : bool) (x : Z) := if b then x + count else x in
  mkEnterpriseStat (id s) (name s)
    (total s + count)
    (inc (is_high record) (high s))
    (inc (is_medium record) (medium s))
    (inc (is_low record) (low s))
    (inc (rv && result_is ReviewResult.TRUE_FRAUD record) (trueFraud s))
    (inc (rv && result_is ReviewResult.SUSPECTED_FRAUD record) (suspected s))
    (inc (rv && result_is ReviewResult.ILLEGAL_BUSINESS record) (illegal s))
    (inc (rv && result_is ReviewResult.FALSE_POSITIVE record) (falsePositive s)).

(** One call of the [data.forEach] callback. *)
Definition rawStats_step (m : list (string * EnterpriseStat)) (record : RiskRecord) :=
  let count := count_or_one (count record) in
  let m1 := if map_has m (enterpriseId record) then m
            else map_set_new m (enterpriseId record) (new_stat record) in
  map_mutate m1 (enterpriseId record) (add_record record count).

Definition rawStats_map (data : list RiskRecord) :=
  fold_left rawStats_step data [].

Definition rawStats (data : list RiskRecord) : list EnterpriseStat :=
  map_values (rawStats_map data).

End EnterpriseTable.

(* ================================================================= *)
(** ** [dailyData]: aggregation by calendar day ([DailyReportTable.tsx]) *)

Module DailyReportTable.

Record DailyAggregatedData := mkDaily {
  date : string;
  timestamp : Z;
  total : Z;
  high : Z;
  medium : Z;
  low : Z
}.

(** [Array.prototype.sort] is stable; [(a, b) => b.timestamp - a.timestamp]
    orders by decreasing [timestamp]. A stable insertion sort. *)
Fixpoint insert_desc (x : DailyAggregatedData) (l : list DailyAggregatedData) :=
  match l with
  | [] => [x]
  | y :: ys =>
      if timestamp y - timestamp x <? 0 then x :: y :: ys
      else y :: insert_desc x ys
  end.

Definition sort_desc (l : list DailyAggregatedData) : list DailyAggregatedData :=
  fold_left (fun acc x => insert_desc x acc) l [].

Section Daily.
(** [new Date(t).toLocaleDateString('zh-CN')] and
    [new Date(new Date(t).toDateString()).getTime()]: both depend only on
    the environment's time zone, which the code does not fix. *)
Variable toLocaleDateString : Z -> string.
Variable startOfLocalDay : Z -> Z.

Definition add_record (record : RiskRecord) (count : Z) (s : DailyAggregatedData) :=
  mkDaily (date s) (timestamp s)
    (total s + count)
    (high s + if is_high record then count else 0)
    (medium s + if is_high record then 0
                else if is_medium record then count else 0)
    (low s + if is_high record || is_medium record then 0
             else if is_low record then count else 0).

Definition dailyData_step (m : list (string * DailyAggregatedData))
    (record : RiskRecord) :=
  let dateKey := toLocaleDateString (callTime record) in
  let count := count_or_one (count record) in
  let m1 := if map_has m dateKey then m
            else map_set_new m dateKey
                   (mkDaily dateKey (startOfLocalDay (callTime record)) 0 0 0 0) in
  map_mutate m1 dateKey (add_record record count).

Definition dailyData (data : list RiskRecord) : list DailyAggregatedData :=
  sort_desc (map_values (fold_left dailyData_step data [])).
End Daily.

End DailyReportTable.

(* ================================================================= *)
(** ** Search filter and sort selection ([EnterpriseTable.tsx]) *)

Module TableView.
Import EnterpriseTable.

(** [String.prototype.toLowerCase] on the ASCII range. *)
Definition lower_ascii (c : ascii) : ascii :=
  let n := nat_of_ascii c in
  if (65 <=? n)%nat && (n <=? 90)%nat then ascii_of_nat (n + 32) else c.

Fixpoint toLowerCase (s : string) : string :=
  match s with
  | EmptyString => EmptyString
  | String c s' => String (lower_ascii c) (toLowerCase s')
  end.

(** [s.includes(t)]: [t] occurs in [s] at some position. *)
Fixpoint includes (s t : string) : bool :=
  if String.prefix t s then true
  else match s with
       | EmptyString => false
       | String _ s' => includes s' t
       end.

(** White space removed by [String.prototype.trim] (ASCII part). *)
Definition is_ws (c : ascii) : bool :=
  match nat_of_ascii c with
  | 9 | 10 | 11 | 12 | 13 | 32 => true
  | _ => false
  end%nat.

Fixpoint drop_ws (l : list ascii) : list ascii :=
  match l with
  | [] => []
  | c :: l' => if is_ws c then drop_ws l' else l
  end.

Definition trim (s : string) : string :=
  string_of_list_ascii (rev (drop_ws (rev (drop_ws (list_ascii_of_string s))))).

(** The [// Filter] step of [processedData]. *)
Definition search_filter (searchTerm : string) (result : list EnterpriseStat)
  : list EnterpriseStat :=
  if negb (String.eqb (trim searchTerm) "") then
    let lowerTerm := toLowerCase searchTerm in
    filter (fun item => includes (toLowerCase (name item)) lowerTerm
                        || includes (id item) lowerTerm) result
  else result.

Inductive SortKey := k_high | k_medium | k_low | k_trueFraud | k_suspected
                   | k_illegal | k_falsePositive.
Inductive SortDirection := asc | desc.

Definition SortKey_eqb (a b : SortKey) : bool :=
  match a, b with
  | k_high, k_high | k_medium, k_medium | k_low, k_low
  | k_trueFraud, k_trueFraud | k_suspected, k_suspected
  | k_illegal, k_illegal | k_falsePositive, k_falsePositive => true
  | _, _ => false
  end.

Record SortConfig := mkSortConfig {
  key : option SortKey;
  direction : SortDirection
}.

(** [prev.key === key]; [prev.key] may be [null]. *)
Definition key_is (k : option SortKey) (key : SortKey) : bool :=
  match k with Some k' => SortKey_eqb k' key | None => false end.

(** The updater passed to [setSortConfig] by [handleSort]. *)
Definition handleSort (key0 : SortKey) (prev : SortConfig) : SortConfig :=
  if key_is (key prev) key0 then
    mkSortConfig (Some key0)
      (match direction prev with asc => desc | desc => asc end)
  else mkSortConfig (Some key0) desc.

End TableView.

(* ================================================================= *)
(** ** Time-window filter ([filteredData]) *)

Module TimeWindow.

Definition msPerDay : Z := 86400000.

(** Days since 1970-01-01 of a proleptic Gregorian date (ECMAScript
    [MakeDay]); linear in [d], so an out-of-range day rolls over. *)
Definition days_from_civil (y m d : Z) : Z :=
  let y' := if m <=? 2 then y - 1 else y in
  let era := y' / 400 in
  let yoe := y' - era * 400 in
  let mp := (m + 9) mod 12 in
  let doy := (153 * mp + 2) / 5 + d - 1 in
  let doe := yoe * 365 + yoe / 4 - yoe / 100 + doy in
  era * 146097 + doe - 719468.

(** Inverse of [days_from_civil]: (year, month, day). *)
Definition civil_from_days (z : Z) : Z * Z * Z :=
  let z' := z + 719468 in
  let era := z' / 146097 in
  let doe := z' - era * 146097 in
  let yoe := (doe - doe / 1460 + doe / 36524 - doe / 146096) / 365 in
  let doy := doe - (365 * yoe + yoe / 4 - yoe / 100) in
  let mp := (5 * doy + 2) / 153 in
  let d := doy - (153 * mp + 2) / 5 + 1 in
  let m := if mp <? 10 then mp + 3 else mp - 9 in
  (if m <=? 2 then yoe + era * 400 + 1 else yoe + era * 400, m, d).

Section Zone.
(** Offset of local time from UTC, in milliseconds (no DST). *)
Variable tz : Z.

Definition localTime (t : Z) : Z := t + tz.
Definition utc (l : Z) : Z := l - tz.

(** [new Date(y, m, d)] (local midnight, [m] counted from 1 here). *)
Definition newLocalDate (y m d : Z) : Z := utc (days_from_civil y m d * msPerDay).

(** [date.setDate(date.getDate() + k)] keeps the local time of day. *)
Definition addLocalDays (t k : Z) : Z :=
  utc (localTime t + k * msPerDay).

(** [date.setFullYear(date.getFullYear() + k)]. *)
Definition addLocalYears (t k : Z) : Z :=
  let l := localTime t in
  let '(y, m, d) := civil_from_days (l / msPerDay) in
  utc (days_from_civil (y + k) m d * msPerDay + l mod msPerDay).

(** [date.setHours(h, mi, s, ms)] in local time. *)
Definition setHours (t h mi s ms : Z) : Z :=
  utc ((localTime t / msPerDay) * msPerDay
       + h * 3600000 + mi * 60000 + s * 1000 + ms).

(** The value of an [<input type="date">]: a "YYYY-MM-DD" string. *)
Record DateOnly := mkDateOnly { year : Z; month : Z; day : Z }.

(** [new Date("YYYY-MM-DD")]: a date-only ISO string is read as UTC
    midnight (ECMAScript Date Time String Format). *)
Definition parseDateOnly (s : DateOnly) : Z :=
  days_from_civil (year s) (month s) (day s) * msPerDay.

Record CustomDateRange := mkRange { start : DateOnly; end_ : DateOnly }.

Inductive TimeFilter := today | yesterday | days7 | days30 | year_ | custom.

(** The predicate passed to [rawData.filter], given [now]. *)
Definition keep (timeFilter : TimeFilter) (customDateRange : CustomDateRange)
    (now : Z) (d : RiskRecord) : bool :=
  let '(y, m, dd) := civil_from_days (localTime now / msPerDay) in
  let startOfToday := newLocalDate y m dd in
  let callDate := callTime d in
  match timeFilter with
  | today => startOfToday <=? callDate
  | yesterday =>
      let startOfYesterday := addLocalDays startOfToday (-1) in
      (startOfYesterday <=? callDate) && (callDate <? startOfToday)
  | days7 => addLocalDays startOfToday (-7) <=? callDate
  | days30 => addLocalDays startOfToday (-30) <=? callDate
  | year_ => addLocalYears startOfToday (-1) <=? callDate
  | custom =>
      let start := parseDateOnly (start customDateRange) in
      let end0 := parseDateOnly (end_ customDateRange) in
      let end1 := setHours end0 23 59 59 999 in
      (start <=? callDate) && (callDate <=? end1)
  end.

Definition filteredData (rawData : list RiskRecord) (timeFilter : TimeFilter)
    (customDateRange : CustomDateRange) (now : Z) : list RiskRecord :=
  filter (keep timeFilter customDateRange now) rawData.
End Zone.

End TimeWindow.

(* ================================================================= *)
(** ** Specification-side notions *)

(** The spec's weight of a record: its [count], or [1] when unset. *)
Definition spec_weight (d : RiskRecord) : Z :=
  match count d with Some n => n | None => 1 end.

(** The data model's [weight >= 1] (or unset). *)
Definition pos_count (d : RiskRecord) : Prop :=
  match count d with Some n => 0 < n | None => True end.

(** A count that is unset or not negative. *)
Definition nonneg_count (d : RiskRecord) : Prop :=
  match count d with Some n => 0 <= n | None => True end.

Definition sumZ (f : RiskRecord -> Z) (l : list RiskRecord) : Z :=
  fold_right (fun d acc => f d + acc) 0 l.

Definition with_count (c : option Z) (r : RiskRecord) : RiskRecord :=
  mkRiskRecord (id r) (enterpriseId r) (enterpriseName r) (customerNumber r)
    (callTime r) (duration r) (riskLevel r) (fraudType r) (riskPoints r)
    (reviewStatus r) (reviewResult r) (reviewer r) c.

Definition opposite (d : TableView.SortDirection) : TableView.SortDirection :=
  match d with TableView.asc => TableView.desc | TableView.desc => TableView.asc end.

(** Invariant of the per-enterprise map: keys are distinct and each row
    carries its key as [id]. *)
Definition rawStats_inv (m : list (string * EnterpriseTable.EnterpriseStat)) : Prop :=
  NoDup (map fst m) /\ Forall (fun kv => EnterpriseTable.id (snd kv) = fst kv) m.

(* ================================================================= *)
(** ** Concrete inputs *)

Definition sample_record (ent name : string) (t : Z) (lvl : RiskLevel.t)
    (st : ReviewStatus.t) (res : ReviewResult.t) (c : option Z) : RiskRecord :=
  mkRiskRecord "REC-1" ent name "1234****5678" t 60 lvl "" [] st res None c.

(** The three-record scenario of the spec's testable properties. *)
Definition scenario : list RiskRecord :=
  [ sample_record "7501556" "A" 0 RiskLevel.HIGH ReviewStatus.REVIEWED
      ReviewResult.TRUE_FRAUD (Some 1);
    sample_record "7501556" "A" 0 RiskLevel.HIGH ReviewStatus.PENDING
      ReviewResult.PENDING (Some 1);
    sample_record "7122191" "B" 0 RiskLevel.MEDIUM ReviewStatus.REVIEWED
      ReviewResult.FALSE_POSITIVE (Some 5) ].

(** Two records of one enterprise id with different names. *)
Definition renamed : list RiskRecord :=
  [ sample_record "7122191" "B" 0 RiskLevel.LOW ReviewStatus.PENDING
      ReviewResult.PENDING (Some 100);
    sample_record "7501556" "first" 0 RiskLevel.HIGH ReviewStatus.PENDING
      ReviewResult.PENDING None;
    sample_record "7501556" "second" 0 RiskLevel.MEDIUM ReviewStatus.REVIEWED
      ReviewResult.SUSPECTED_FRAUD (Some 1) ].

(** [days_from_civil 2024 1 10 * msPerDay]: 2024-01-10T00:00:00.000Z. *)
Definition jan10_utc : Z := 1704844800000.

Definition range_jan10 : TimeWindow.CustomDateRange :=
  TimeWindow.mkRange (TimeWindow.mkDateOnly 2024 1 10) (TimeWindow.mkDateOnly 2024 1 10).

(** The local calendar date of instant [t] in zone [tz]. *)
Definition local_date (tz t : Z) : Z * Z * Z :=
  TimeWindow.civil_from_days (TimeWindow.localTime tz t / TimeWindow.msPerDay).

Definition enterprise_row (id name : string) : EnterpriseTable.EnterpriseStat :=
  EnterpriseTable.mkEnterpriseStat id name 1 1 0 0 0 0 0 0.

Ltac proj_step_tac := intros [] d; cbn; lia.

Ltac wf_counts :=
  repeat (apply Forall_cons; [unfold pos_count, nonneg_count; simpl; lia|]);
  apply Forall_nil.

(* ================================================================= *)
(** ** [Array.prototype.sort] with a numeric comparator *)

Section JsSort.
Context {A : Type} (cmp : A -> A -> Z).

(** [Array.prototype.sort] is stable (ES2019): [x] goes after every
    element [y] already placed with [cmp(y, x) <= 0]. *)
Fixpoint js_insert (x : A) (l : list A) : list A :=
  match l with
  | [] => [x]
  | y :: ys => if cmp y x >? 0 then x :: y :: ys else y :: js_insert x ys
  end.

Definition js_sort (l : list A) : list A :=
  fold_left (fun acc x => js_insert x acc) l [].
End JsSort.

(* ================================================================= *)
(** ** The [if (!map.has(k)) map.set(k, ...); map.get(k)!.x += n] pattern *)

Section Upsert.
Context {V : Type}.
Variable key : RiskRecord -> string.
Variable init : RiskRecord -> V.
Variable upd : RiskRecord -> V -> V.

Definition upsert_step (m : list (string * V)) (r : RiskRecord) :=
  let k := key r in
  let m1 := if map_has m k then m else map_set_new m k (init r) in
  map_mutate m1 k (upd r).
End Upsert.

(** Sum of a numeric field over an array. *)
Definition sumBy {A} (f : A -> Z) (l : list A) : Z :=
  fold_right (fun x acc => f x + acc) 0 l.


(* ================================================================= *)
(** ** Filter then sort: [processedData] ([EnterpriseTable.tsx]) *)

Module EnterpriseView.
Import EnterpriseTable TableView.

(** [a[sortConfig.key!]]. *)
Definition sort_value (k : SortKey) (s : EnterpriseStat) : Z :=
  match k with
  | k_high => high s
  | k_medium => medium s
  | k_low => low s
  | k_trueFraud => trueFraud s
  | k_suspected => suspected s
  | k_illegal => illegal s
  | k_falsePositive => falsePositive s
  end.

(** The comparator passed to [result.sort]. *)
Definition compare_rows (k : SortKey) (dir : SortDirection) (a b : EnterpriseStat) : Z :=
  match dir with
  | asc => sort_value k a - sort_value k b
  | desc => sort_value k b - sort_value k a
  end.

Definition processedData (rawStats : list EnterpriseStat) (searchTerm : string)
    (sortConfig : SortConfig) : list EnterpriseStat :=
  let result := search_filter searchTerm rawStats in
  match key sortConfig with
  | Some k => js_sort (compare_rows k (direction sortConfig)) result
  | None => result
  end.

End EnterpriseView.

(* ================================================================= *)
(** ** Drill-down of one day ([drillDownData], [DailyReportTable.tsx]) *)

Module DrillDown.

Module Ent.
Record t := mk { id : string; name : string; count : Z }.
End Ent.

(** [{ ...item, percentage }]. *)
Module Item.
Record t := mk { id : string; name : string; count : Z; percentage : Q }.
End Item.

Section Drill.
Variable toLocaleDateString : Z -> string.

(** One call of [targetRecords.forEach]; the state is
    [(totalMidHighForDay, enterpriseMap)]. *)
Definition drill_step (st : Z * list (string * Ent.t)) (r : RiskRecord) :=
  let '(totalMidHighForDay, enterpriseMap) := st in
  (totalMidHighForDay + count_or_one (count r),
   upsert_step enterpriseId
     (fun r => Ent.mk (enterpriseId r) (enterpriseName r) 0)
     (fun r e => Ent.mk (Ent.id e) (Ent.name e) (Ent.count e + count_or_one (count r)))
     enterpriseMap r).

Definition targetRecords (selectedDate : string) (data : list RiskRecord) :=
  filter (fun d => String.eqb (toLocaleDateString (callTime d)) selectedDate
                   && (is_high d || is_medium d)) data.

(** [selectedDate] is [string | null]; [!selectedDate] holds for [null]
    and for the empty string. *)
Definition drillDownData (selectedDate : option string) (data : list RiskRecord)
    : option (Z * list Item.t) :=
  match selectedDate with
  | None => None
  | Some EmptyString => None
  | Some sd =>
      let '(totalMidHighForDay, enterpriseMap) :=
        fold_left drill_step (targetRecords sd data) (0, []) in
      let list :=
        js_sort (fun a b => Item.count b - Item.count a)
          (map (fun item =>
                  Item.mk (Ent.id item) (Ent.name item) (Ent.count item)
                    (if totalMidHighForDay >? 0
                     then (inject_Z (Ent.count item) / inject_Z totalMidHighForDay)
                          * inject_Z 100
                     else 0%Q))
               (map_values enterpriseMap)) in
      Some (totalMidHighForDay, list)
  end.
End Drill.

End DrillDown.

(* ================================================================= *)
(** ** Chart aggregations ([Charts.tsx]) *)

Module Charts.

Definition COLOR_HIGH : string := "#ef4444".
Definition COLOR_MEDIUM : string := "#f59e0b".
Definition COLOR_LOW : string := "#3b82f6".
Definition COLOR_FRAUD : string := "#dc2626".
Definition COLOR_SUSPECT : string := "#f97316".
Definition COLOR_FALSE : string := "#10b981".
Definition COLOR_ILLEGAL : string := "#8b5cf6".

(** The [{ name, value, color }] entries handed to the charts. *)
Record Entry := mkEntry { name : string; value : Z; color : string }.

(** [RiskDistributionPie]: the [data.forEach] with three independent [if]s. *)
Definition pie_step (hml : Z * Z * Z) (d : RiskRecord) : Z * Z * Z :=
  let '(h, m, l) := hml in
  let n := count_or_one (count d) in
  (if is_high d then h + n else h,
   if is_medium d then m + n else m,
   if is_low d then l + n else l).

Definition RiskDistributionPie_stats (data : list RiskRecord) : list Entry :=
  let '(h, m, l) := fold_left pie_step data (0, 0, 0) in
  [ mkEntry "高风险" h COLOR_HIGH;
    mkEntry "中风险" m COLOR_MEDIUM;
    mkEntry "低风险" l COLOR_LOW ].

(** [ReviewOutcomeChart]: [counts] has one key per outcome but [PENDING];
    [d.reviewResult in counts] skips a pending result. *)
Definition outcome_step (c : Z * Z * Z * Z) (d : RiskRecord) : Z * Z * Z * Z :=
  let '(tf, sf, il, fp) := c in
  let n := count_or_one (count d) in
  match reviewResult d with
  | ReviewResult.TRUE_FRAUD => (tf + n, sf, il, fp)
  | ReviewResult.SUSPECTED_FRAUD => (tf, sf + n, il, fp)
  | ReviewResult.ILLEGAL_BUSINESS => (tf, sf, il + n, fp)
  | ReviewResult.FALSE_POSITIVE => (tf, sf, il, fp + n)
  | ReviewResult.PENDING => c
  end.

Definition ReviewOutcomeChart_stats (data : list RiskRecord) : list Entry :=
  let '(tf, sf, il, fp) :=
    fold_left outcome_step (filter is_reviewed data) (0, 0, 0, 0) in
  [ mkEntry "真实诈骗" tf COLOR_FRAUD;
    mkEntry "疑似诈骗" sf COLOR_SUSPECT;
    mkEntry "业务违法" il COLOR_ILLEGAL;
    mkEntry "场景误判" fp COLOR_FALSE ].

(** [RiskTrendChart]: one entry per local date with a counter per tier
    label; [entry[d.riskLevel] !== undefined] fails for the NORMAL label. *)
Record TrendRow := mkTrend { date : string; high : Z; medium : Z; low : Z }.

Section Trend.
Variable toLocaleDateString : Z -> string.

Definition trend_add (d : RiskRecord) (e : TrendRow) : TrendRow :=
  let n := count_or_one (count d) in
  match riskLevel d with
  | RiskLevel.HIGH => mkTrend (date e) (high e + n) (medium e) (low e)
  | RiskLevel.MEDIUM => mkTrend (date e) (high e) (medium e + n) (low e)
  | RiskLevel.LOW => mkTrend (date e) (high e) (medium e) (low e + n)
  | RiskLevel.NORMAL => e
  end.

Definition trend_step :=
  upsert_step (fun d => toLocaleDateString (callTime d))
    (fun d => mkTrend (toLocaleDateString (callTime d)) 0 0 0) trend_add.

Definition RiskTrendChart_dailyStats (data : list RiskRecord) : list TrendRow :=
  rev (map_values (fold_left trend_step data [])).
End Trend.

End Charts.

(** The [RiskDistributionPie] of [DailyReportTable.tsx], with a safety rate
    and a pie restricted to HIGH and MEDIUM. *)
Module SafetyPie.
Import Charts.

Record Stats := mkStats {
  total : Z; h : Z; m : Z; l : Z; safetyRate : Q;
  pieData : list Entry; abnormalTotal : Z
}.

Definition RiskDistributionPie_stats (data : list RiskRecord) : Stats :=
  let '(h, m, l) := fold_left pie_step data (0, 0, 0) in
  let total := h + m + l in
  let abnormalTotal := h + m in
  let safetyRate :=
    if total >? 0 then ((inject_Z l / inject_Z total) * inject_Z 100)%Q else 0%Q in
  let pieData :=
    filter (fun item => value item >? 0)
      [ mkEntry "高风险" h COLOR_HIGH; mkEntry "中风险" m COLOR_MEDIUM ] in
  mkStats total h m l safetyRate pieData abnormalTotal.

End SafetyPie.

(* ================================================================= *)
(** ** Review fields of the generated records ([mockData.ts]) *)

Module MockData.

Definition reviewers : list string :=
  ["renyl"; "zhangzeng"; "fangsy"]%string.

(** [u > x] for a draw [u] of [Math.random()]. *)
Definition gt_q (u x : Q) : bool := negb (Qle_bool u x).

(** [arr[i]]: [undefined] for a negative or too large index. *)
Definition index {A} (arr : list A) (i : Z) : option A :=
  if i <? 0 then None else nth_error arr (Z.to_nat i).

(** The [reviewStatus], [reviewResult] and [reviewer] fields built by
    [createSingleRecord] for a record of level [level], where [u1] is the
    draw deciding [isReviewed], [u2] the draw [r] of the result and [u3]
    the draw picking the reviewer. *)
Definition createSingleRecord_review (level : RiskLevel.t) (u1 u2 u3 : Q)
    : ReviewStatus.t * ReviewResult.t * option string :=
  let isReviewed :=
    match level with
    | RiskLevel.HIGH => gt_q u1 (5 # 100)
    | RiskLevel.MEDIUM => gt_q u1 (3 # 10)
    | _ => gt_q u1 (99 # 100)
    end in
  let result :=
    if isReviewed then
      match level with
      | RiskLevel.HIGH =>
          if gt_q u2 (4 # 10) then ReviewResult.TRUE_FRAUD
          else if gt_q u2 (15 # 100) then ReviewResult.SUSPECTED_FRAUD
          else if gt_q u2 (5 # 100) then ReviewResult.ILLEGAL_BUSINESS
          else ReviewResult.FALSE_POSITIVE
      | RiskLevel.MEDIUM =>
          if gt_q u2 (6 # 10) then ReviewResult.FALSE_POSITIVE
          else if gt_q u2 (3 # 10) then ReviewResult.SUSPECTED_FRAUD
          else if gt_q u2 (1 # 10) then ReviewResult.ILLEGAL_BUSINESS
          else ReviewResult.TRUE_FRAUD
      | _ => ReviewResult.FALSE_POSITIVE
      end
    else ReviewResult.PENDING in
  (if isReviewed then ReviewStatus.REVIEWED else ReviewStatus.PENDING,
   result,
   if isReviewed then index reviewers (Qfloor (u3 * inject_Z 3)) else None).

End MockData.

(* ================================================================= *)
(** ** CSV export of the enterprise table ([handleExport]) *)

Module EnterpriseExport.
Import EnterpriseTable.

(** Decimal digits of [n >= 0], prepended to [acc]; [fuel] bounds the
    number of digits. *)
Fixpoint digits (fuel : nat) (n : Z) (acc : string) : string :=
  match fuel with
  | O => acc
  | S f =>
      let acc' := String (ascii_of_nat (48 + Z.to_nat (n mod 10))) acc in
      if n <? 10 then acc' else digits f (n / 10) acc'
  end.

(** [String(n)] for an integer [n] (the template literal [`${n}`]). *)
Definition number_to_string (n : Z) : string :=
  let m := Z.abs n in
  let ds := digits (S (Z.to_nat (Z.log2 m))) m EmptyString in
  if n <? 0 then String "-" ds else ds.

(** [arr.join(sep)]. *)
Fixpoint join (sep : ascii) (l : list string) : string :=
  match l with
  | [] => EmptyString
  | [x] => x
  | x :: l' => String.append x (String sep (join sep l'))
  end.

Definition comma : ascii := ","%char.
Definition newline : ascii := ascii_of_nat 10.

Definition headers : list string :=
  ["企业名称"; "企业ID"; "高风险"; "中风险"; "低风险"; "真实诈骗"; "疑似诈骗";
   "业务违法"; "场景误判"]%string.

(** The template literal of one row. *)
Definition row_line (row : EnterpriseStat) : string :=
  join comma
    [name row; id row; number_to_string (high row); number_to_string (medium row);
     number_to_string (low row); number_to_string (trueFraud row);
     number_to_string (suspected row); number_to_string (illegal row);
     number_to_string (falsePositive row)].

(** [[headers.join(','), ...processedData.map(...)].join('\n')]. *)
Definition csv_body (processedData : list EnterpriseStat) : string :=
  join newline (join comma headers :: map row_line processedData).

(** The UTF-8 bytes of [﻿]. *)
Definition bom : string :=
  String (ascii_of_nat 239) (String (ascii_of_nat 187) (String (ascii_of_nat 191) EmptyString)).

(** [csvContent], or nothing when [processedData.length === 0]. *)
Definition csvContent (processedData : list EnterpriseStat) : option string :=
  match processedData with
  | [] => None
  | _ => Some (String.append "data:text/csv;charset=utf-8,"%string
                 (String.append bom (csv_body processedData)))
  end.

End EnterpriseExport.

(** Splitting a string at every occurrence of a character, as a CSV
    reader does with [split(c)]. *)
Fixpoint split_on (c : ascii) (s : string) : list string :=
  match s with
  | EmptyString => [EmptyString]
  | String a s' =>
      if Ascii.eqb a c then EmptyString :: split_on c s'
      else match split_on c s' with
           | [] => [String a EmptyString]
           | w :: ws => String a w :: ws
           end
  end.

(** [c] does not occur in [s]. *)
Fixpoint no_char (c : ascii) (s : string) : bool :=
  match s with
  | EmptyString => true
  | String a s' => negb (Ascii.eqb a c) && no_char c s'
  end.

(* ================================================================= *)
(** ** Notions used by the proofs *)

(** The order a numeric comparator asks for: [a] may precede [b]. *)
Definition cmp_le {A} (cmp : A -> A -> Z) (a b : A) : Prop := cmp a b <= 0.

(** A numeric field of the value stored under [k], [0] when absent. *)
Definition get_or {V} (f : V -> Z) (m : list (string * V)) (k : string) : Z :=
  match map_get m k with Some v => f v | None => 0 end.

(** Case analysis on the three tags of one record. *)
Ltac rec_cases r :=
  cbn in *; unfold is_high, is_medium, is_low, is_reviewed, result_is in *;
  destruct (riskLevel r), (reviewStatus r), (reviewResult r); cbn; lia.

(* ================================================================= *)
(** ** Lemmas on the [calculateStats] loop *)

Section StatsLoop.

Variable proj : StatsAcc -> Z.
Hypothesis proj_step :
  forall a d, proj (stats_step a d) = proj a + proj (stats_step acc0 d).

Lemma fold_stats_proj :
  forall l a, proj (fold_left stats_step l a)
              = proj a + sumZ (fun d => proj (stats_step acc0 d)) l.
Proof.
  induction l as [|d l IH]; intros a; simpl.
  - lia.
  - rewrite IH, proj_step. lia.
Qed.

End StatsLoop.

Lemma total_step : forall a d, total (stats_step a d) = total a + total (stats_step acc0 d).
Proof. proj_step_tac. Qed.
Lemma highRisk_step : forall a d, highRisk (stats_step a d) = highRisk a + highRisk (stats_step acc0 d).
Proof. proj_step_tac. Qed.
Lemma medRisk_step : forall a d, medRisk (stats_step a d) = medRisk a + medRisk (stats_step acc0 d).
Proof. proj_step_tac. Qed.
Lemma lowRisk_step : forall a d, lowRisk (stats_step a d) = lowRisk a + lowRisk (stats_step acc0 d).
Proof. proj_step_tac. Qed.
Lemma highRiskReviewed_step : forall a d,
  highRiskReviewed (stats_step a d) = highRiskReviewed a + highRiskReviewed (stats_step acc0 d).
Proof. proj_step_tac. Qed.
Lemma mediumRiskReviewed_step : forall a d,
  mediumRiskReviewed (stats_step a d) = mediumRiskReviewed a + mediumRiskReviewed (stats_step acc0 d).
Proof. proj_step_tac. Qed.
Lemma reviewedTotal_step : forall a d,
  reviewedTotal (stats_step a d) = reviewedTotal a + reviewedTotal (stats_step acc0 d).
Proof. proj_step_tac. Qed.

Lemma sumZ_ext : forall f g l,
  Forall (fun d => f d = g d) l -> sumZ f l = sumZ g l.
Proof.
  intros f g l H; induction H; simpl; [reflexivity | lia].
Qed.

Lemma sumZ_le : forall f g l,
  Forall (fun d => f d <= g d) l -> sumZ f l <= sumZ g l.
Proof.
  intros f g l H; induction H; simpl; lia.
Qed.

Lemma sumZ_add : forall f g l, sumZ f l + sumZ g l = sumZ (fun d => f d + g d) l.
Proof.
  intros f g l; induction l; simpl; lia.
Qed.

Lemma sumZ_nonneg : forall f l, Forall (fun d => 0 <= f d) l -> 0 <= sumZ f l.
Proof.
  intros f l H; induction H; simpl; lia.
Qed.

Lemma count_or_one_nonneg : forall d, nonneg_count d -> 1 <= count_or_one (count d).
Proof.
  unfold nonneg_count, count_or_one; intros d; destruct (count d) as [n|]; [|lia].
  intros Hn; destruct (Z.eqb_spec n 0); lia.
Qed.

Lemma pos_nonneg_count : forall d, pos_count d -> nonneg_count d.
Proof.
  unfold pos_count, nonneg_count; intros d; destruct (count d); lia.
Qed.

Lemma calculateStats_fold : forall data,
  calculateStats data =
  let a := fold_left stats_step data acc0 in
  let reviewTargetCount := highRisk a + medRisk a in
  let reviewedTargetCount := highRiskReviewed a + mediumRiskReviewed a in
  {| totalDetections := total a;
     highRiskCount := highRisk a;
     mediumRiskCount := medRisk a;
     lowRiskCount := lowRisk a;
     highRiskReviewedCount := highRiskReviewed a;
     mediumRiskReviewedCount := mediumRiskReviewed a;
     reviewedCount := reviewedTotal a;
     reviewCompletionRate :=
       if reviewTargetCount >? 0
       then (inject_Z reviewedTargetCount / inject_Z reviewTargetCount) * inject_Z 100
       else 0%Q;
     highRiskRate :=
       if total a >? 0
       then (inject_Z (highRisk a) / inject_Z (total a)) * inject_Z 100
       else 0%Q;
     trueFraudCount := trueFraud a;
     suspectedFraudCount := suspFraud a;
     illegalBusinessCount := illegal a;
     falsePositiveCount := falsePos a;
     accuracyRate :=
       if reviewedTotal a >? 0
       then (inject_Z (trueFraud a + suspFraud a + illegal a)
             / inject_Z (reviewedTotal a)) * inject_Z 100
       else 0%Q
  |}.
Proof. reflexivity. Qed.

Lemma reviewTarget_nonneg : forall data, Forall nonneg_count data ->
  0 <= highRiskCount (calculateStats data) + mediumRiskCount (calculateStats data).
Proof.
  intros data H; cbn [calculateStats highRiskCount mediumRiskCount].
  rewrite (fold_stats_proj highRisk highRisk_step),
          (fold_stats_proj medRisk medRisk_step); cbn [acc0 highRisk medRisk].
  rewrite !Z.add_0_l, sumZ_add.
  apply sumZ_nonneg; eapply Forall_impl; [|exact H].
  intros d Hd; pose proof (count_or_one_nonneg d Hd).
  cbn; destruct (is_high d), (is_medium d); lia.
Qed.

Lemma reviewed_nonneg : forall data, Forall nonneg_count data ->
  0 <= reviewedCount (calculateStats data).
Proof.
  intros data H; cbn [calculateStats reviewedCount].
  rewrite (fold_stats_proj reviewedTotal reviewedTotal_step); cbn [acc0 reviewedTotal].
  rewrite Z.add_0_l.
  apply sumZ_nonneg; eapply Forall_impl; [|exact H].
  intros d Hd; pose proof (count_or_one_nonneg d Hd).
  cbn; destruct (is_reviewed d); lia.
Qed.

(* ================================================================= *)
(** ** Claims on [calculateStats] *)

(** C1: weight conservation. When every record's count is a positive
    integer or unset, [totalDetections] is the sum of the records'
    weights, an unset count weighing 1. *)
Theorem calculateStats_weight_conservation (data : list RiskRecord)
    (Hw : Forall pos_count data) :
  totalDetections (calculateStats data) = sumZ spec_weight data.
Proof.
  cbn [calculateStats totalDetections].
  rewrite (fold_stats_proj total total_step); cbn [acc0 total].
  apply sumZ_ext; eapply Forall_impl; [|exact Hw].
  unfold pos_count, spec_weight; intros d Hd; cbn.
  unfold count_or_one; destruct (count d) as [n|]; [|reflexivity].
  destruct (Z.eqb_spec n 0); lia.
Qed.

(** C5: tier partition. When every record's [riskLevel] is HIGH, MEDIUM
    or LOW, the three tier counts add up to [totalDetections]. *)
Theorem calculateStats_tier_partition (data : list RiskRecord)
    (Ht : Forall (fun d => In (riskLevel d)
                             [RiskLevel.HIGH; RiskLevel.MEDIUM; RiskLevel.LOW]) data) :
  let s := calculateStats data in
  highRiskCount s + mediumRiskCount s + lowRiskCount s = totalDetections s.
Proof.
  cbn [calculateStats highRiskCount mediumRiskCount lowRiskCount totalDetections].
  rewrite (fold_stats_proj highRisk highRisk_step),
          (fold_stats_proj medRisk medRisk_step),
          (fold_stats_proj lowRisk lowRisk_step),
          (fold_stats_proj total total_step); cbn [acc0 highRisk medRisk lowRisk total].
  rewrite !Z.add_0_l, !sumZ_add.
  enough (sumZ (fun d => highRisk (stats_step acc0 d) + medRisk (stats_step acc0 d)
                         + lowRisk (stats_step acc0 d)) data
          = sumZ (fun d => total (stats_step acc0 d)) data) by lia.
  apply sumZ_ext; eapply Forall_impl; [|exact Ht].
  intros d Hd; revert Hd; cbn.
  unfold is_high, is_medium, is_low.
  destruct (riskLevel d); cbn; intros Hd; [lia | lia | lia |].
  destruct Hd as [H|[H|[H|[]]]]; discriminate.
Qed.

(** C6: review subset. When every count is a positive integer or unset,
    [reviewedCount <= totalDetections], [highRiskReviewedCount <=
    highRiskCount] and [mediumRiskReviewedCount <= mediumRiskCount]. *)
Theorem calculateStats_review_subset (data : list RiskRecord)
    (Hw : Forall pos_count data) :
  let s := calculateStats data in
  reviewedCount s <= totalDetections s /\
  highRiskReviewedCount s <= highRiskCount s /\
  mediumRiskReviewedCount s <= mediumRiskCount s.
Proof.
  cbn [calculateStats reviewedCount totalDetections highRiskReviewedCount
       highRiskCount mediumRiskReviewedCount mediumRiskCount].
  rewrite (fold_stats_proj reviewedTotal reviewedTotal_step),
          (fold_stats_proj total total_step),
          (fold_stats_proj highRiskReviewed highRiskReviewed_step),
          (fold_stats_proj highRisk highRisk_step),
          (fold_stats_proj mediumRiskReviewed mediumRiskReviewed_step),
          (fold_stats_proj medRisk medRisk_step).
  cbn [acc0 reviewedTotal total highRiskReviewed highRisk mediumRiskReviewed medRisk].
  assert (Hn : Forall (fun d => 1 <= count_or_one (count d)) data).
  { eapply Forall_impl; [|exact Hw].
    intros d Hd; apply count_or_one_nonneg, pos_nonneg_count, Hd. }
  split; [|split]; apply Z.add_le_mono_l, sumZ_le; eapply Forall_impl; try exact Hn;
    intros d Hd; cbv beta in Hd; cbn; unfold is_reviewed, is_high, is_medium;
    destruct (reviewStatus d), (riskLevel d); lia.
Qed.

(** C3: review completion rate. Whatever the records (with a count that is
    unset or not negative), [reviewCompletionRate] is
    [(highRiskReviewedCount + mediumRiskReviewedCount) / (highRiskCount +
    mediumRiskCount) * 100] when the HIGH+MEDIUM count is not zero, and
    exactly [0] when it is zero. *)
Theorem calculateStats_review_completion_rate (data : list RiskRecord)
    (Hw : Forall nonneg_count data) :
  let s := calculateStats data in
  (highRiskCount s + mediumRiskCount s <> 0 ->
     reviewCompletionRate s =
     ((inject_Z (highRiskReviewedCount s + mediumRiskReviewedCount s)
       / inject_Z (highRiskCount s + mediumRiskCount s)) * inject_Z 100)%Q) /\
  (highRiskCount s + mediumRiskCount s = 0 -> reviewCompletionRate s = 0%Q).
Proof.
  pose proof (reviewTarget_nonneg data Hw) as Hn; revert Hn.
  cbn [calculateStats highRiskCount mediumRiskCount highRiskReviewedCount
       mediumRiskReviewedCount reviewCompletionRate].
  intros Hn; split; intros Hz.
  - destruct (Z.gtb_spec (highRisk (fold_left stats_step data acc0)
                          + medRisk (fold_left stats_step data acc0)) 0);
      [reflexivity | lia].
  - rewrite Hz; reflexivity.
Qed.

(** C4: accuracy rate. [reviewedCount] is the weight-sum of the REVIEWED
    records of every tier; [accuracyRate] is [(trueFraudCount +
    suspectedFraudCount + illegalBusinessCount) / reviewedCount * 100]
    (FALSE_POSITIVE left out of the numerator) when [reviewedCount] is not
    zero, and exactly [0] when it is zero. *)
Theorem calculateStats_accuracy_rate (data : list RiskRecord)
    (Hw : Forall nonneg_count data) :
  let s := calculateStats data in
  reviewedCount s
    = sumZ (fun d => if is_reviewed d then count_or_one (count d) else 0) data /\
  (reviewedCount s <> 0 ->
     accuracyRate s =
     ((inject_Z (trueFraudCount s + suspectedFraudCount s + illegalBusinessCount s)
       / inject_Z (reviewedCount s)) * inject_Z 100)%Q) /\
  (reviewedCount s = 0 -> accuracyRate s = 0%Q).
Proof.
  pose proof (reviewed_nonneg data Hw) as Hn; revert Hn.
  cbn [calculateStats reviewedCount trueFraudCount suspectedFraudCount
       illegalBusinessCount accuracyRate].
  intros Hn; split; [|split]; [| intros Hz ..].
  - rewrite (fold_stats_proj reviewedTotal reviewedTotal_step); cbn [acc0 reviewedTotal].
    rewrite Z.add_0_l; reflexivity.
  - destruct (Z.gtb_spec (reviewedTotal (fold_left stats_step data acc0)) 0);
      [reflexivity | lia].
  - rewrite Hz; reflexivity.
Qed.

(* ================================================================= *)
(** ** Sort selection ([handleSort]) *)

Lemma key_is_spec : forall k K, TableView.key_is k K = true <-> k = Some K.
Proof.
  intros [k|] K; simpl; [|split; discriminate].
  destruct k, K; simpl; split; congruence.
Qed.

(** C8: sort-selection state machine. A sort request with key [K] moves
    [(activeKey, direction)] to [(K, opposite direction)] when [K] is the
    active key and to [(K, desc)] otherwise; three requests with the same
    key give two opposite directions, then the first one again. *)
Theorem handleSort_state_machine (prev : TableView.SortConfig) (K : TableView.SortKey) :
  TableView.handleSort K prev =
    (if TableView.key_is (TableView.key prev) K
     then TableView.mkSortConfig (Some K) (opposite (TableView.direction prev))
     else TableView.mkSortConfig (Some K) TableView.desc) /\
  (TableView.key_is (TableView.key prev) K = true <-> TableView.key prev = Some K) /\
  (let s1 := TableView.handleSort K prev in
   let s2 := TableView.handleSort K s1 in
   let s3 := TableView.handleSort K s2 in
   TableView.key s1 = Some K /\ TableView.key s2 = Some K /\ TableView.key s3 = Some K /\
   TableView.direction s2 = opposite (TableView.direction s1) /\
   TableView.direction s3 = TableView.direction s1).
Proof.
  split; [|split; [apply key_is_spec|]].
  - unfold TableView.handleSort; destruct (TableView.key_is (TableView.key prev) K);
      reflexivity.
  - destruct prev as [[k|] d]; [destruct k|]; destruct K, d; cbn; repeat split.
Qed.

(* ================================================================= *)
(** ** A count of [0] *)

Lemma stats_step_count0 : forall a r,
  stats_step a (with_count (Some 0) r) = stats_step a (with_count None r).
Proof. reflexivity. Qed.

Lemma rawStats_step_count0 : forall m r,
  EnterpriseTable.rawStats_step m (with_count (Some 0) r)
  = EnterpriseTable.rawStats_step m (with_count None r).
Proof. reflexivity. Qed.

Lemma dailyData_step_count0 : forall f g m r,
  DailyReportTable.dailyData_step f g m (with_count (Some 0) r)
  = DailyReportTable.dailyData_step f g m (with_count None r).
Proof. reflexivity. Qed.

(** C9: a record whose [count] is present but [0] weighs 1, exactly as a
    record with no [count], in [calculateStats], in the per-enterprise
    rollup [rawStats] and in the per-day rollup [dailyData] (whatever the
    local-date functions); alone it makes one detection, not zero. *)
Theorem count_zero_weighs_one (l1 l2 : list RiskRecord) (r : RiskRecord)
    (toLocaleDateString : Z -> string) (startOfLocalDay : Z -> Z) :
  calculateStats (l1 ++ with_count (Some 0) r :: l2)
    = calculateStats (l1 ++ with_count None r :: l2) /\
  EnterpriseTable.rawStats (l1 ++ with_count (Some 0) r :: l2)
    = EnterpriseTable.rawStats (l1 ++ with_count None r :: l2) /\
  DailyReportTable.dailyData toLocaleDateString startOfLocalDay
      (l1 ++ with_count (Some 0) r :: l2)
    = DailyReportTable.dailyData toLocaleDateString startOfLocalDay
        (l1 ++ with_count None r :: l2) /\
  totalDetections (calculateStats [with_count (Some 0) r]) = 1.
Proof.
  unfold calculateStats, EnterpriseTable.rawStats, EnterpriseTable.rawStats_map,
    DailyReportTable.dailyData.
  rewrite !fold_left_app; cbn [fold_left].
  rewrite stats_step_count0, rawStats_step_count0, dailyData_step_count0.
  repeat split.
Qed.

(* ================================================================= *)
(** ** The per-enterprise map *)

Module RawStatsFacts.
Import EnterpriseTable.

Lemma map_get_cons : forall (kv : string * EnterpriseStat) m k,
  map_get (kv :: m) k = if String.eqb (fst kv) k then Some (snd kv) else map_get m k.
Proof. intros kv m k; unfold map_get; simpl; destruct (String.eqb (fst kv) k); reflexivity. Qed.

Lemma map_get_mutate : forall m k k' (f : EnterpriseStat -> EnterpriseStat),
  map_get (map_mutate m k f) k'
  = option_map (fun v => if String.eqb k' k then f v else v) (map_get m k').
Proof.
  induction m as [|[k0 v0] m IH]; intros k k' f; [reflexivity|].
  unfold map_mutate in *; simpl map; rewrite !map_get_cons.
  destruct (String.eqb k0 k) eqn:E0; simpl fst; simpl snd;
    destruct (String.eqb_spec k0 k'); subst; simpl;
    try rewrite E0; try rewrite IH; auto.
Qed.

Lemma map_get_set_new : forall m k k' (v : EnterpriseStat),
  map_get (map_set_new m k v) k'
  = match map_get m k' with
    | Some x => Some x
    | None => if String.eqb k k' then Some v else None
    end.
Proof.
  induction m as [|kv m IH]; intros k k' v.
  - unfold map_set_new, map_get; simpl; destruct (String.eqb k k'); reflexivity.
  - unfold map_set_new in *; simpl app; rewrite !map_get_cons, IH.
    destruct (String.eqb (fst kv) k'); reflexivity.
Qed.

Lemma map_has_get : forall m k,
  map_has m k = false -> map_get (V := EnterpriseStat) m k = None.
Proof.
  induction m as [|kv m IH]; intros k H; [reflexivity|].
  simpl in H; apply orb_false_iff in H as [H1 H2].
  rewrite map_get_cons, H1; auto.
Qed.

Lemma map_get_has : forall m k (s : EnterpriseStat),
  map_get m k = Some s -> map_has m k = true.
Proof.
  induction m as [|kv m IH]; intros k s H; [discriminate|].
  rewrite map_get_cons in H; simpl.
  destruct (String.eqb (fst kv) k); [reflexivity|]; simpl; eauto.
Qed.

Lemma add_record_id : forall r c s, id (add_record r c s) = id s.
Proof. reflexivity. Qed.
Lemma add_record_name : forall r c s, name (add_record r c s) = name s.
Proof. reflexivity. Qed.

Lemma map_has_get_iff : forall m k,
  map_has m k = match map_get (V := EnterpriseStat) m k with Some _ => true | None => false end.
Proof.
  induction m as [|kv m IH]; intros k; [reflexivity|].
  rewrite map_get_cons; simpl; destruct (String.eqb (fst kv) k); [reflexivity|apply IH].
Qed.

Lemma step_other : forall m r k,
  enterpriseId r <> k -> map_get (rawStats_step m r) k = map_get m k.
Proof.
  intros m r k Hk; unfold rawStats_step.
  rewrite map_get_mutate.
  assert (Hk1 : String.eqb (enterpriseId r) k = false) by (apply String.eqb_neq; exact Hk).
  assert (Hk2 : String.eqb k (enterpriseId r) = false)
    by (rewrite String.eqb_sym; exact Hk1).
  destruct (map_has m (enterpriseId r)); [|rewrite map_get_set_new];
    destruct (map_get m k); simpl; rewrite ?Hk1, ?Hk2; reflexivity.
Qed.

Lemma step_keep : forall m r k s,
  map_get m k = Some s ->
  exists s', map_get (rawStats_step m r) k = Some s' /\ id s' = id s /\ name s' = name s.
Proof.
  intros m r k s H; unfold rawStats_step.
  rewrite map_get_mutate.
  destruct (map_has m (enterpriseId r)); [|rewrite map_get_set_new]; rewrite H; simpl;
    eexists; split; try reflexivity;
    destruct (String.eqb k (enterpriseId r)); split; reflexivity.
Qed.

Lemma step_new : forall m r,
  map_get m (enterpriseId r) = None ->
  exists s', map_get (rawStats_step m r) (enterpriseId r) = Some s'
             /\ id s' = enterpriseId r /\ name s' = enterpriseName r.
Proof.
  intros m r H; unfold rawStats_step.
  rewrite map_has_get_iff, H, map_get_mutate, map_get_set_new, H, String.eqb_refl.
  simpl; rewrite ?String.eqb_refl.
  eexists; split; [reflexivity | split; reflexivity].
Qed.
Lemma mutate_fst : forall m k (f : EnterpriseStat -> EnterpriseStat),
  map fst (map_mutate m k f) = map fst m.
Proof.
  induction m as [|kv m IH]; intros k f; [reflexivity|].
  unfold map_mutate in *; simpl; rewrite IH.
  destruct (String.eqb (fst kv) k); reflexivity.
Qed.

Lemma mutate_ids : forall m k f,
  (forall v, id (f v) = id v) ->
  Forall (fun kv => id (snd kv) = fst kv) m ->
  Forall (fun kv => id (snd kv) = fst kv) (map_mutate m k f).
Proof.
  intros m k f Hf H; unfold map_mutate; induction H as [|kv m Hkv H IH];
    simpl; constructor; auto.
  destruct (String.eqb (fst kv) k); simpl; rewrite ?Hf; exact Hkv.
Qed.

Lemma map_has_false_notin : forall m k,
  map_has (V := EnterpriseStat) m k = false -> ~ In k (map fst m).
Proof.
  intros m k H Hin; apply in_map_iff in Hin as [kv [Hk Hin]].
  assert (existsb (fun kv => String.eqb (fst kv) k) m = true)
    by (apply existsb_exists; exists kv; split; [exact Hin | apply String.eqb_eq, Hk]).
  unfold map_has in H; congruence.
Qed.

Lemma step_inv : forall m r, rawStats_inv m -> rawStats_inv (rawStats_step m r).
Proof.
  intros m r [Hnd Hid]; unfold rawStats_step, rawStats_inv.
  rewrite mutate_fst; split.
  - destruct (map_has m (enterpriseId r)) eqn:Hh; [exact Hnd|].
    unfold map_set_new; rewrite map_app; simpl.
    apply NoDup_app; [exact Hnd | constructor; [intros [] | constructor] |].
    intros a Ha [Heq|[]]; subst a.
    exact (map_has_false_notin m _ Hh Ha).
  - apply mutate_ids; [intros; reflexivity|].
    destruct (map_has m (enterpriseId r)); [exact Hid|].
    unfold map_set_new; apply Forall_app; split; [exact Hid|].
    constructor; [reflexivity | constructor].
Qed.

Lemma fold_inv : forall data m, rawStats_inv m -> rawStats_inv (fold_left rawStats_step data m).
Proof.
  induction data as [|r data IH]; intros m H; simpl; [exact H|].
  apply IH, step_inv, H.
Qed.

Lemma fold_keep : forall data m k s,
  map_get m k = Some s ->
  exists s', map_get (fold_left rawStats_step data m) k = Some s'
             /\ id s' = id s /\ name s' = name s.
Proof.
  induction data as [|r data IH]; intros m k s H; simpl.
  - exists s; auto.
  - destruct (step_keep m r k s H) as [s1 [H1 [Hi1 Hn1]]].
    destruct (IH _ _ _ H1) as [s2 [H2 [Hi2 Hn2]]].
    exists s2; split; [exact H2 | split; congruence].
Qed.

Lemma fold_first : forall data m k r,
  map_get m k = None ->
  find (fun d => String.eqb (enterpriseId d) k) data = Some r ->
  exists s, map_get (fold_left rawStats_step data m) k = Some s
            /\ id s = k /\ name s = enterpriseName r.
Proof.
  induction data as [|r0 data IH]; intros m k r Hm Hf; simpl in *; [discriminate|].
  destruct (String.eqb_spec (enterpriseId r0) k) as [Hk|Hk].
  - injection Hf as <-; subst k.
    destruct (step_new m r0 Hm) as [s1 [H1 [Hi1 Hn1]]].
    destruct (fold_keep data _ _ _ H1) as [s2 [H2 [Hi2 Hn2]]].
    exists s2; split; [exact H2 | split; congruence].
  - apply (IH _ _ _ (eq_trans (step_other m r0 k Hk) Hm) Hf).
Qed.

Lemma in_values_get : forall m (s : EnterpriseStat),
  rawStats_inv m -> In s (map_values m) -> map_get m (id s) = Some s.
Proof.
  induction m as [|kv m IH]; intros s [Hnd Hid] Hin; [destruct Hin|].
  inversion Hnd as [|k0 l0 Hnotin Hnd' Heq]; inversion Hid as [|kv0 l1 Hkv Hid' Heq'];
    subst.
  rewrite map_get_cons.
  destruct Hin as [<-|Hin].
  - rewrite Hkv, String.eqb_refl; reflexivity.
  - assert (Hg : map_get m (id s) = Some s) by (apply IH; [split; assumption | exact Hin]).
    destruct (String.eqb_spec (fst kv) (id s)) as [He|He]; [|exact Hg].
    exfalso; apply Hnotin; rewrite He.
    apply in_map_iff; exists (id s, s); split; [reflexivity|].
    unfold map_get in Hg.
    destruct (find (fun kv => String.eqb (fst kv) (id s)) m) as [kv'|] eqn:Ef;
      [|discriminate].
    apply find_some in Ef as [Hin' Heqb]; simpl in Hg; injection Hg as <-.
    apply String.eqb_eq in Heqb; destruct kv' as [k' v']; simpl in *; subst; exact Hin'.
Qed.
End RawStatsFacts.

(** C10: first write wins. When [r] is the first record, in input order,
    whose [enterpriseId] is [k], the per-enterprise rollup has exactly one
    row with id [k], and its name is [r]'s [enterpriseName]: later records
    with the same id change only the row's counters. *)
Theorem rawStats_first_name_wins (data : list RiskRecord) (k : string) (r : RiskRecord)
    (Hfirst : find (fun d => String.eqb (enterpriseId d) k) data = Some r) :
  exists s, In s (EnterpriseTable.rawStats data) /\
            EnterpriseTable.id s = k /\
            EnterpriseTable.name s = enterpriseName r /\
            (forall s', In s' (EnterpriseTable.rawStats data) ->
                        EnterpriseTable.id s' = k -> s' = s).
Proof.
  assert (Hinv : rawStats_inv (EnterpriseTable.rawStats_map data))
    by (apply RawStatsFacts.fold_inv; split; constructor).
  destruct (RawStatsFacts.fold_first data [] k r eq_refl Hfirst) as [s [Hg [Hi Hn]]].
  exists s; split; [|split; [exact Hi | split; [exact Hn|]]].
  - unfold map_get in Hg.
    destruct (find (fun kv => String.eqb (fst kv) k)
                   (fold_left EnterpriseTable.rawStats_step data [])) as [kv|] eqn:Ef;
      [|discriminate].
    apply find_some in Ef as [Hin _]; simpl in Hg; injection Hg as <-.
    apply in_map_iff; exists kv; split; [reflexivity | exact Hin].
  - intros s' Hin' Hid'.
    pose proof (RawStatsFacts.in_values_get _ s' Hinv Hin') as Hg'.
    rewrite Hid' in Hg'. unfold EnterpriseTable.rawStats_map in Hg'. congruence.
Qed.

(* ================================================================= *)
(** ** Custom-range filter and search filter at concrete inputs *)

Open Scope string_scope.

(** C2 (at a concrete input): [new Date("2024-01-10")] is UTC midnight, and
    [setHours(23, 59, 59, 999)] is applied in local time to that instant.
    At UTC+08:00 a record at local 2024-01-10 00:00:00 is dropped by the
    custom range 2024-01-10..2024-01-10; at UTC-05:00 a record at local
    2024-01-09 23:59:59 is kept by it. *)
Theorem custom_range_not_local_day :
  let tz8 := 28800000 in
  let tzm5 := -18000000 in
  let r0 := sample_record "7501556" "A" (jan10_utc - tz8)
              RiskLevel.HIGH ReviewStatus.PENDING ReviewResult.PENDING None in
  let r1 := sample_record "7501556" "A" (jan10_utc + 18000000 - 1000)
              RiskLevel.HIGH ReviewStatus.PENDING ReviewResult.PENDING None in
  local_date tz8 (callTime r0) = (2024, 1, 10) /\
  TimeWindow.filteredData tz8 [r0] TimeWindow.custom range_jan10 jan10_utc = [] /\
  local_date tzm5 (callTime r1) = (2024, 1, 9) /\
  TimeWindow.filteredData tzm5 [r1] TimeWindow.custom range_jan10 jan10_utc = [r1].
Proof. vm_compute; repeat split. Qed.

(** In the UTC zone the custom range 2024-01-10..2024-01-10 keeps both ends
    of the local day and drops the neighbouring seconds. *)
Example custom_range_utc :
  map (fun t => TimeWindow.keep 0 TimeWindow.custom range_jan10 jan10_utc
                  (sample_record "7501556" "A" t RiskLevel.HIGH
                     ReviewStatus.PENDING ReviewResult.PENDING None))
      [jan10_utc - 1000; jan10_utc; jan10_utc + 86399000; jan10_utc + 86400000]
  = [false; true; true; false].
Proof. vm_compute; reflexivity. Qed.

(** C7 (at a concrete input): the search term is lower-cased but the row
    id is not, so the term "AB1" does not keep a row whose id is "AB1",
    although the term matches that id case-insensitively. *)
Theorem search_filter_id_case_sensitive :
  let row := enterprise_row "AB1" "x" in
  TableView.includes (TableView.toLowerCase (EnterpriseTable.id row))
                     (TableView.toLowerCase "AB1") = true /\
  TableView.search_filter "AB1" [row] = [].
Proof. vm_compute; split; reflexivity. Qed.

(** The spec's three-record scenario. *)
Example scenario_stats :
  let s := calculateStats scenario in
  totalDetections s = 7 /\ highRiskCount s = 2 /\ mediumRiskCount s = 5 /\
  highRiskReviewedCount s = 1 /\ mediumRiskReviewedCount s = 5 /\
  (reviewCompletionRate s == 600 # 7)%Q /\ (accuracyRate s == 100 # 6)%Q.
Proof. vm_compute; repeat split. Qed.

(* ================================================================= *)
(** ** Witnesses *)

Lemma calculateStats_weight_conservation_witness :
  Forall pos_count scenario /\
  totalDetections (calculateStats scenario) = sumZ spec_weight scenario.
Proof.
  split; [wf_counts|].
  apply calculateStats_weight_conservation; wf_counts.
Defined.

Lemma calculateStats_tier_partition_witness :
  Forall (fun d => In (riskLevel d)
                     [RiskLevel.HIGH; RiskLevel.MEDIUM; RiskLevel.LOW]) scenario /\
  (let s := calculateStats scenario in
   highRiskCount s + mediumRiskCount s + lowRiskCount s = totalDetections s).
Proof.
  assert (H : Forall (fun d => In (riskLevel d)
                     [RiskLevel.HIGH; RiskLevel.MEDIUM; RiskLevel.LOW]) scenario)
    by (repeat (apply Forall_cons; [simpl; auto|]); apply Forall_nil).
  split; [exact H | apply calculateStats_tier_partition; exact H].
Defined.

Lemma calculateStats_review_subset_witness :
  Forall pos_count scenario /\
  (let s := calculateStats scenario in
   reviewedCount s <= totalDetections s /\
   highRiskReviewedCount s <= highRiskCount s /\
   mediumRiskReviewedCount s <= mediumRiskCount s).
Proof.
  split; [wf_counts|].
  apply calculateStats_review_subset; wf_counts.
Defined.

Lemma calculateStats_review_completion_rate_witness :
  Forall nonneg_count scenario /\
  (let s := calculateStats scenario in
   (highRiskCount s + mediumRiskCount s <> 0 ->
      reviewCompletionRate s =
      ((inject_Z (highRiskReviewedCount s + mediumRiskReviewedCount s)
        / inject_Z (highRiskCount s + mediumRiskCount s)) * inject_Z 100)%Q) /\
   (highRiskCount s + mediumRiskCount s = 0 -> reviewCompletionRate s = 0%Q)).
Proof.
  split; [wf_counts|].
  apply calculateStats_review_completion_rate; wf_counts.
Defined.

Lemma calculateStats_accuracy_rate_witness :
  Forall nonneg_count scenario /\
  (let s := calculateStats scenario in
   reviewedCount s
     = sumZ (fun d => if is_reviewed d then count_or_one (count d) else 0) scenario /\
   (reviewedCount s <> 0 ->
      accuracyRate s =
      ((inject_Z (trueFraudCount s + suspectedFraudCount s + illegalBusinessCount s)
        / inject_Z (reviewedCount s)) * inject_Z 100)%Q) /\
   (reviewedCount s = 0 -> accuracyRate s = 0%Q)).
Proof.
  split; [wf_counts|].
  apply calculateStats_accuracy_rate; wf_counts.
Defined.

Lemma rawStats_first_name_wins_witness :
  find (fun d => String.eqb (enterpriseId d) "7501556") renamed
    = Some (sample_record "7501556" "first" 0 RiskLevel.HIGH ReviewStatus.PENDING
              ReviewResult.PENDING None) /\
  exists s, In s (EnterpriseTable.rawStats renamed) /\
            EnterpriseTable.id s = "7501556" /\
            EnterpriseTable.name s = "first" /\
            (forall s', In s' (EnterpriseTable.rawStats renamed) ->
                        EnterpriseTable.id s' = "7501556" -> s' = s).
Proof.
  split; [reflexivity|].
  apply (rawStats_first_name_wins renamed "7501556"
           (sample_record "7501556" "first" 0 RiskLevel.HIGH ReviewStatus.PENDING
              ReviewResult.PENDING None)).
  reflexivity.
Defined.

(* ================================================================= *)
(** ** Lemmas on [js_sort] *)

Close Scope string_scope.
Open Scope list_scope.

Section JsSortFacts.
Context {A : Type} (cmp : A -> A -> Z).

Lemma js_insert_perm : forall x l, Permutation (js_insert cmp x l) (x :: l).
Proof.
  intros x; induction l as [|y ys IH]; simpl; [reflexivity|].
  destruct (cmp y x >? 0); [reflexivity|].
  rewrite IH; apply perm_swap.
Qed.

Lemma js_sort_fold_perm : forall l acc,
  Permutation (fold_left (fun acc x => js_insert cmp x acc) l acc) (acc ++ l).
Proof.
  induction l as [|x l IH]; intros acc; simpl.
  - rewrite app_nil_r; reflexivity.
  - rewrite IH, js_insert_perm. apply Permutation_middle.
Qed.

Lemma js_sort_perm : forall l, Permutation (js_sort cmp l) l.
Proof. intros l; apply js_sort_fold_perm. Qed.

Hypothesis cmp_anti : forall a b, cmp b a = - cmp a b.
Hypothesis cmp_trans : forall a b c, cmp a b <= 0 -> cmp b c <= 0 -> cmp a c <= 0.

Lemma js_insert_sorted : forall x l, Sorted (cmp_le cmp) l -> Sorted (cmp_le cmp) (js_insert cmp x l).
Proof.
  intros x; induction l as [|y ys IH]; intros Hs; simpl.
  - repeat constructor.
  - destruct (Z.gtb_spec (cmp y x) 0) as [Hgt|Hle].
    + constructor; [exact Hs|]. constructor. unfold cmp_le.
      rewrite cmp_anti; lia.
    + apply Sorted_inv in Hs as [Hs Hhd].
      constructor; [apply IH; exact Hs|].
      destruct ys as [|z zs]; simpl.
      * constructor; exact Hle.
      * destruct (cmp z x >? 0); constructor; [exact Hle|].
        apply HdRel_inv in Hhd; exact Hhd.
Qed.

Lemma js_sort_sorted : forall l, Sorted (cmp_le cmp) (js_sort cmp l).
Proof.
  intros l; unfold js_sort.
  assert (H : forall acc, Sorted (cmp_le cmp) acc ->
            Sorted (cmp_le cmp) (fold_left (fun acc x => js_insert cmp x acc) l acc)).
  { induction l as [|x l IH]; intros acc Hacc; simpl; [exact Hacc|].
    apply IH, js_insert_sorted, Hacc. }
  apply H; constructor.
Qed.

Lemma js_insert_last : forall x l,
  Forall (fun y => cmp y x <= 0) l -> js_insert cmp x l = l ++ [x].
Proof.
  intros x; induction l as [|y ys IH]; intros H; simpl; [reflexivity|].
  apply Forall_inv in H as Hy; apply Forall_inv_tail in H.
  destruct (Z.gtb_spec (cmp y x) 0); [lia|]. rewrite IH; auto.
Qed.

Lemma js_sort_sorted_id : forall l, Sorted (cmp_le cmp) l -> js_sort cmp l = l.
Proof.
  intros l Hs.
  assert (Hss : StronglySorted (cmp_le cmp) l).
  { apply Sorted_StronglySorted; [|exact Hs].
    intros a b c; apply cmp_trans. }
  unfold js_sort.
  assert (H : forall pre, StronglySorted (cmp_le cmp) (pre ++ l) ->
            fold_left (fun acc x => js_insert cmp x acc) l pre = pre ++ l).
  { clear Hs Hss; induction l as [|x l IH]; intros pre Hp; simpl.
    - rewrite app_nil_r; reflexivity.
    - rewrite js_insert_last.
      + rewrite IH; [rewrite <- app_assoc; reflexivity|].
        rewrite <- app_assoc; exact Hp.
      + clear IH. induction pre as [|p pre IHp]; [constructor|].
        simpl in Hp; apply StronglySorted_inv in Hp as [Hp Hall].
        constructor; [|apply IHp, Hp].
        rewrite Forall_forall in Hall; apply Hall, in_or_app; simpl; auto. }
  apply (H []); exact Hss.
Qed.

End JsSortFacts.

Lemma insert_desc_js : forall x l,
  DailyReportTable.insert_desc x l
  = js_insert (fun a b => DailyReportTable.timestamp b - DailyReportTable.timestamp a) x l.
Proof.
  intros x; induction l as [|y ys IH]; simpl; [reflexivity|].
  destruct (Z.ltb_spec (DailyReportTable.timestamp y - DailyReportTable.timestamp x) 0),
           (Z.gtb_spec (DailyReportTable.timestamp x - DailyReportTable.timestamp y) 0);
    try lia; [reflexivity | rewrite IH; reflexivity].
Qed.

Lemma sort_desc_js : forall l,
  DailyReportTable.sort_desc l
  = js_sort (fun a b => DailyReportTable.timestamp b - DailyReportTable.timestamp a) l.
Proof.
  intros l; unfold DailyReportTable.sort_desc, js_sort.
  generalize (@nil DailyReportTable.DailyAggregatedData).
  induction l as [|x l IH]; intros acc; simpl; [reflexivity|].
  rewrite insert_desc_js; apply IH.
Qed.

Lemma compare_rows_anti : forall k dir a b,
  EnterpriseView.compare_rows k dir b a = - EnterpriseView.compare_rows k dir a b.
Proof. intros k [] a b; unfold EnterpriseView.compare_rows; lia. Qed.

Lemma compare_rows_trans : forall k dir a b c,
  EnterpriseView.compare_rows k dir a b <= 0 ->
  EnterpriseView.compare_rows k dir b c <= 0 ->
  EnterpriseView.compare_rows k dir a c <= 0.
Proof. intros k [] a b c; unfold EnterpriseView.compare_rows; lia. Qed.

Lemma filter_id {A} (f : A -> bool) : forall l,
  (forall x, In x l -> f x = true) -> filter f l = l.
Proof.
  induction l as [|x l IH]; intros H; simpl; [reflexivity|].
  rewrite (H x (or_introl eq_refl)), IH; [reflexivity|].
  intros y Hy; apply H; right; exact Hy.
Qed.

(** Rows that already passed the search filter pass it again. *)
Lemma search_filter_stable : forall t rows l,
  (forall x, In x l -> In x (TableView.search_filter t rows)) ->
  TableView.search_filter t l = l.
Proof.
  intros t rows l H; unfold TableView.search_filter in *.
  destruct (negb _); [|reflexivity].
  apply filter_id; intros x Hx; apply H in Hx.
  apply filter_In in Hx as [_ Hx]; exact Hx.
Qed.

(* ================================================================= *)
(** ** [processedData] *)

(** X1: the displayed rows are the rows kept by the search filter,
    reordered; with a sort key they are in the comparator's order
    (ascending or descending by the selected counter), and with no key
    they are the filtered rows in their original order. *)
Theorem processedData_sorted_perm (rows : list EnterpriseTable.EnterpriseStat)
    (t : string) (cfg : TableView.SortConfig) :
  Permutation (EnterpriseView.processedData rows t cfg) (TableView.search_filter t rows) /\
  match TableView.key cfg with
  | Some k =>
      Sorted (fun a b => EnterpriseView.compare_rows k (TableView.direction cfg) a b <= 0)
        (EnterpriseView.processedData rows t cfg)
  | None => EnterpriseView.processedData rows t cfg = TableView.search_filter t rows
  end.
Proof.
  unfold EnterpriseView.processedData; cbv zeta.
  destruct (TableView.key cfg) as [k|]; split; try reflexivity.
  - apply js_sort_perm.
  - apply (js_sort_sorted (EnterpriseView.compare_rows k (TableView.direction cfg))).
    apply compare_rows_anti.
Qed.

(** X2: recomputing [processedData] on its own output with the same
    search term and sort configuration changes nothing. *)
Theorem processedData_idempotent (rows : list EnterpriseTable.EnterpriseStat)
    (t : string) (cfg : TableView.SortConfig) :
  EnterpriseView.processedData (EnterpriseView.processedData rows t cfg) t cfg
  = EnterpriseView.processedData rows t cfg.
Proof.
  unfold EnterpriseView.processedData; cbv zeta.
  destruct (TableView.key cfg) as [k|].
  - rewrite (search_filter_stable t rows).
    + apply js_sort_sorted_id.
      * apply compare_rows_trans.
      * apply js_sort_sorted, compare_rows_anti.
    + intros x Hx. eapply Permutation_in; [apply js_sort_perm | exact Hx].
  - apply (search_filter_stable t rows); auto.
Qed.

(* ================================================================= *)
(** ** Lemmas on the JS [Map] and the upsert pattern *)

Section MapFacts.
Context {V : Type}.
Implicit Types (m : list (string * V)) (k : string) (v : V).

Lemma map_has_in : forall m k, map_has m k = true <-> In k (map fst m).
Proof.
  intros m k; unfold map_has; rewrite existsb_exists; split.
  - intros [kv [Hin Heq]]; apply String.eqb_eq in Heq; subst k.
    apply in_map; exact Hin.
  - intros Hin; apply in_map_iff in Hin as [kv [<- Hin]].
    exists kv; split; [exact Hin | apply String.eqb_refl].
Qed.

Lemma map_has_get_or_none : forall m k,
  map_has m k = match map_get m k with Some _ => true | None => false end.
Proof.
  intros m k; unfold map_has, map_get; induction m as [|kv m IH]; simpl; [reflexivity|].
  destruct (String.eqb (fst kv) k); [reflexivity | exact IH].
Qed.

Lemma map_mutate_fst : forall m k (g : V -> V), map fst (map_mutate m k g) = map fst m.
Proof.
  intros m k g; induction m as [|kv m IH]; simpl; [reflexivity|].
  destruct (String.eqb (fst kv) k); simpl; rewrite IH; reflexivity.
Qed.

Lemma map_mutate_notin : forall m k (g : V -> V),
  ~ In k (map fst m) -> map_mutate m k g = m.
Proof.
  intros m k g; induction m as [|kv m IH]; intros H; simpl; [reflexivity|].
  destruct (String.eqb_spec (fst kv) k) as [E|E].
  - exfalso; apply H; left; exact E.
  - rewrite IH; [reflexivity|]. intros Hin; apply H; right; exact Hin.
Qed.

Lemma map_get_mutate_gen : forall m k k' (g : V -> V),
  map_get (map_mutate m k g) k'
  = if String.eqb k k' then option_map g (map_get m k') else map_get m k'.
Proof.
  intros m k k' g; unfold map_get; induction m as [|kv m IH]; simpl.
  - destruct (String.eqb k k'); reflexivity.
  - destruct (String.eqb_spec (fst kv) k) as [E|E]; simpl.
    + destruct (String.eqb_spec (fst kv) k') as [E'|E'].
      * subst; rewrite String.eqb_refl; reflexivity.
      * subst; destruct (String.eqb_spec (fst kv) k'); [contradiction|exact IH].
    + destruct (String.eqb_spec (fst kv) k') as [E'|E']; [|exact IH].
      subst k'; destruct (String.eqb_spec k (fst kv)); [congruence|reflexivity].
Qed.

Lemma map_get_app_new : forall m k k' v,
  map_get (map_set_new m k v) k'
  = match map_get m k' with
    | Some x => Some x
    | None => if String.eqb k k' then Some v else None
    end.
Proof.
  intros m k k' v; unfold map_get, map_set_new; induction m as [|kv m IH]; simpl.
  - destruct (String.eqb k k'); reflexivity.
  - destruct (String.eqb (fst kv) k'); [reflexivity | exact IH].
Qed.

Lemma sumBy_app {A} (f : A -> Z) : forall l1 l2,
  sumBy f (l1 ++ l2) = sumBy f l1 + sumBy f l2.
Proof. intros l1 l2; induction l1 as [|x l1 IH]; simpl; [reflexivity|]; rewrite IH; lia. Qed.

Lemma sumBy_mutate : forall (f : V -> Z) (g : V -> V) c m k,
  (forall v, f (g v) = f v + c) ->
  NoDup (map fst m) -> In k (map fst m) ->
  sumBy f (map_values (map_mutate m k g)) = sumBy f (map_values m) + c.
Proof.
  intros f g c m k Hg; induction m as [|kv m IH]; intros Hnd Hin; [destruct Hin|].
  simpl in Hnd, Hin |- *; apply NoDup_cons_iff in Hnd as [Hnot Hnd].
  destruct (String.eqb_spec (fst kv) k) as [E|E]; simpl.
  - subst k; rewrite map_mutate_notin by exact Hnot. rewrite Hg; lia.
  - destruct Hin as [Hin|Hin]; [contradiction|]. rewrite IH by assumption; lia.
Qed.

Lemma in_values_get_gen : forall (kk : V -> string) m v,
  NoDup (map fst m) -> Forall (fun kv => kk (snd kv) = fst kv) m ->
  In v (map_values m) -> map_get m (kk v) = Some v.
Proof.
  intros kk m v; unfold map_get, map_values; induction m as [|kv m IH];
    intros Hnd Hk Hin; [destruct Hin|].
  simpl in Hnd, Hin |- *; apply NoDup_cons_iff in Hnd as [Hnot Hnd].
  apply Forall_cons_iff in Hk as [Hkv Hk].
  destruct Hin as [<-|Hin].
  - rewrite Hkv, String.eqb_refl; reflexivity.
  - destruct (String.eqb_spec (fst kv) (kk v)) as [E|E]; [|apply IH; assumption].
    exfalso; apply Hnot. rewrite E.
    apply in_map_iff in Hin as [kv' [<- Hin']].
    rewrite Forall_forall in Hk; rewrite (Hk kv' Hin'); apply in_map; exact Hin'.
Qed.

End MapFacts.

Section UpsertFacts.
Context {V : Type}.
Variable key : RiskRecord -> string.
Variable init : RiskRecord -> V.
Variable upd : RiskRecord -> V -> V.

Local Abbreviation step := (upsert_step key init upd).

Lemma upsert_keys : forall m r,
  map fst (step m r)
  = if map_has m (key r) then map fst m else map fst m ++ [key r].
Proof.
  intros m r; unfold upsert_step; cbv zeta; rewrite map_mutate_fst.
  destruct (map_has m (key r)); [reflexivity|].
  unfold map_set_new; rewrite map_app; reflexivity.
Qed.

Lemma upsert_nodup : forall m r, NoDup (map fst m) -> NoDup (map fst (step m r)).
Proof.
  intros m r Hnd; rewrite upsert_keys.
  destruct (map_has m (key r)) eqn:Eh; [exact Hnd|].
  apply Permutation_NoDup with (key r :: map fst m).
  - apply Permutation_cons_append.
  - constructor; [|exact Hnd]. intros Hin; apply map_has_in in Hin; congruence.
Qed.

Lemma upsert_in_keys : forall m r k,
  In k (map fst (step m r)) <-> In k (map fst m) \/ key r = k.
Proof.
  intros m r k; rewrite upsert_keys.
  destruct (map_has m (key r)) eqn:Eh.
  - apply map_has_in in Eh; split; [auto|]. intros [H|<-]; assumption.
  - rewrite in_app_iff; simpl; split; intros [H|H]; auto.
    + destruct H as [H|[]]; auto.
Qed.

Lemma upsert_get : forall m r k,
  map_get (step m r) k
  = if String.eqb (key r) k
    then Some (upd r (match map_get m k with Some v => v | None => init r end))
    else map_get m k.
Proof.
  intros m r k; unfold upsert_step; cbv zeta.
  rewrite map_get_mutate_gen, map_has_get_or_none.
  destruct (String.eqb_spec (key r) k) as [<-|E].
  - destruct (map_get m (key r)) as [v|] eqn:Eg; simpl.
    + rewrite Eg; reflexivity.
    + rewrite map_get_app_new, Eg, String.eqb_refl; reflexivity.
  - destruct (map_get m (key r)) as [v|] eqn:Eg; [reflexivity|].
    rewrite map_get_app_new.
    destruct (map_get m k); [reflexivity|].
    destruct (String.eqb_spec (key r) k); [contradiction | reflexivity].
Qed.

Lemma upsert_forall : forall (P : string -> V -> Prop) m r,
  P (key r) (init r) -> (forall v, P (key r) v -> P (key r) (upd r v)) ->
  Forall (fun kv => P (fst kv) (snd kv)) m ->
  Forall (fun kv => P (fst kv) (snd kv)) (step m r).
Proof.
  intros P m r Hi Hu Hm; unfold upsert_step; cbv zeta.
  assert (Hm1 : Forall (fun kv => P (fst kv) (snd kv))
                  (if map_has m (key r) then m else map_set_new m (key r) (init r))).
  { destruct (map_has m (key r)); [exact Hm|].
    apply Forall_app; split; [exact Hm|]. constructor; [exact Hi | constructor]. }
  unfold map_mutate; apply Forall_map.
  eapply Forall_impl; [|exact Hm1]. intros kv Hkv; cbv beta in *.
  destruct (String.eqb_spec (fst kv) (key r)) as [E|E]; [|exact Hkv].
  simpl; rewrite E in *; apply Hu; exact Hkv.
Qed.

Section Additive.
Variable f : V -> Z.
Variable c : RiskRecord -> Z.
Hypothesis f_upd : forall r v, f (upd r v) = f v + c r.
Hypothesis f_init : forall r, f (init r) = 0.

Lemma upsert_get_or : forall m r k,
  get_or f (step m r) k = get_or f m k + (if String.eqb (key r) k then c r else 0).
Proof.
  intros m r k; unfold get_or; rewrite upsert_get.
  destruct (String.eqb (key r) k); [|lia].
  destruct (map_get m k); rewrite f_upd; [lia|]. rewrite f_init; lia.
Qed.

Lemma upsert_sum : forall m r, NoDup (map fst m) ->
  sumBy f (map_values (step m r)) = sumBy f (map_values m) + c r.
Proof.
  intros m r Hnd; unfold upsert_step; cbv zeta.
  destruct (map_has m (key r)) eqn:Eh.
  - apply sumBy_mutate; [apply f_upd | exact Hnd | apply map_has_in, Eh].
  - rewrite sumBy_mutate with (c := c r).
    + unfold map_set_new, map_values; rewrite map_app, sumBy_app; simpl.
      rewrite f_init; lia.
    + apply f_upd.
    + unfold map_set_new; rewrite map_app.
      apply Permutation_NoDup with (key r :: map fst m).
      * apply Permutation_cons_append.
      * constructor; [|exact Hnd]. intros Hin; apply map_has_in in Hin; congruence.
    + unfold map_set_new; rewrite map_app; apply in_or_app; right; left; reflexivity.
Qed.

Lemma upsert_fold_get_or : forall l m k,
  get_or f (fold_left step l m) k
  = get_or f m k + sumBy (fun r => if String.eqb (key r) k then c r else 0) l.
Proof.
  induction l as [|r l IH]; intros m k; simpl; [lia|].
  rewrite IH, upsert_get_or; lia.
Qed.

Lemma upsert_fold_sum : forall l m, NoDup (map fst m) ->
  sumBy f (map_values (fold_left step l m)) = sumBy f (map_values m) + sumBy c l.
Proof.
  induction l as [|r l IH]; intros m Hnd; simpl; [lia|].
  rewrite IH by (apply upsert_nodup, Hnd). rewrite upsert_sum by exact Hnd; lia.
Qed.
End Additive.

Lemma upsert_fold_nodup : forall l m,
  NoDup (map fst m) -> NoDup (map fst (fold_left step l m)).
Proof.
  induction l as [|r l IH]; intros m Hnd; simpl; [exact Hnd|].
  apply IH, upsert_nodup, Hnd.
Qed.

Lemma upsert_fold_in_keys : forall l m k,
  In k (map fst (fold_left step l m)) <->
  In k (map fst m) \/ exists r, In r l /\ key r = k.
Proof.
  induction l as [|r l IH]; intros m k; simpl.
  - split; [auto|]. intros [H|[r [[] _]]]; exact H.
  - rewrite IH, upsert_in_keys; split.
    + intros [[H|H]|[r' [Hin E]]]; eauto.
    + intros [H|[r' [[<-|Hin] E]]]; eauto.
Qed.

Lemma upsert_fold_forall : forall (P : string -> V -> Prop) l m,
  (forall r, P (key r) (init r)) ->
  (forall r v, P (key r) v -> P (key r) (upd r v)) ->
  Forall (fun kv => P (fst kv) (snd kv)) m ->
  Forall (fun kv => P (fst kv) (snd kv)) (fold_left step l m).
Proof.
  intros P; induction l as [|r l IH]; intros m Hi Hu Hm; simpl; [exact Hm|].
  apply IH; auto. apply upsert_forall; auto.
Qed.

End UpsertFacts.

(* ================================================================= *)
(** ** Sums over arrays *)

Lemma sumZ_sumBy : forall f l, sumZ f l = sumBy f l.
Proof. reflexivity. Qed.

Lemma sumBy_ext {A} : forall (f g : A -> Z) l,
  (forall x, In x l -> f x = g x) -> sumBy f l = sumBy g l.
Proof.
  intros f g; induction l as [|x l IH]; intros H; simpl; [reflexivity|].
  rewrite (H x (or_introl eq_refl)), IH; [reflexivity|].
  intros y Hy; apply H; right; exact Hy.
Qed.

Lemma sumBy_perm {A} : forall (f : A -> Z) l l', Permutation l l' -> sumBy f l = sumBy f l'.
Proof. intros f l l' H; induction H; simpl; lia. Qed.

Lemma sumBy_filter {A} : forall (f : A -> Z) p l,
  sumBy f (filter p l) = sumBy (fun x => if p x then f x else 0) l.
Proof.
  intros f p; induction l as [|x l IH]; simpl; [reflexivity|].
  destruct (p x); simpl; rewrite IH; lia.
Qed.

Lemma sumBy_nonneg {A} : forall (f : A -> Z) l,
  (forall x, In x l -> 0 <= f x) -> 0 <= sumBy f l.
Proof.
  intros f; induction l as [|x l IH]; intros H; simpl; [lia|].
  pose proof (H x (or_introl eq_refl)).
  assert (0 <= sumBy f l) by (apply IH; intros y Hy; apply H; right; exact Hy). lia.
Qed.

Lemma sumBy_le {A} : forall (f g : A -> Z) l,
  (forall x, In x l -> f x <= g x) -> sumBy f l <= sumBy g l.
Proof.
  intros f g; induction l as [|x l IH]; intros H; simpl; [lia|].
  pose proof (H x (or_introl eq_refl)).
  assert (sumBy f l <= sumBy g l) by (apply IH; intros y Hy; apply H; right; exact Hy). lia.
Qed.

Lemma trueFraud_acc_step : forall a d,
  trueFraud (stats_step a d) = trueFraud a + trueFraud (stats_step acc0 d).
Proof. proj_step_tac. Qed.
Lemma suspFraud_acc_step : forall a d,
  suspFraud (stats_step a d) = suspFraud a + suspFraud (stats_step acc0 d).
Proof. proj_step_tac. Qed.
Lemma illegal_acc_step : forall a d,
  illegal (stats_step a d) = illegal a + illegal (stats_step acc0 d).
Proof. proj_step_tac. Qed.
Lemma falsePos_acc_step : forall a d,
  falsePos (stats_step a d) = falsePos a + falsePos (stats_step acc0 d).
Proof. proj_step_tac. Qed.

(** Each counter of [calculateStats] is the sum of the records'
    contributions. *)
Lemma calc_proj : forall P : StatsAcc -> Z,
  (forall a d, P (stats_step a d) = P a + P (stats_step acc0 d)) -> P acc0 = 0 ->
  forall data, P (fold_left stats_step data acc0) = sumBy (fun d => P (stats_step acc0 d)) data.
Proof.
  intros P Hs H0 data; rewrite (fold_stats_proj P Hs), H0, Z.add_0_l; reflexivity.
Qed.

Ltac calc_field P := rewrite (calc_proj P) by (proj_step_tac || reflexivity).

(* ================================================================= *)
(** ** The aggregations as instances of the upsert pattern *)

Lemma rawStats_step_upsert :
  EnterpriseTable.rawStats_step
  = upsert_step enterpriseId EnterpriseTable.new_stat
      (fun r => EnterpriseTable.add_record r (count_or_one (count r))).
Proof. reflexivity. Qed.

Lemma dailyData_step_upsert : forall f g,
  DailyReportTable.dailyData_step f g
  = upsert_step (fun r => f (callTime r))
      (fun r => DailyReportTable.mkDaily (f (callTime r)) (g (callTime r)) 0 0 0 0)
      (fun r => DailyReportTable.add_record r (count_or_one (count r))).
Proof. reflexivity. Qed.

Lemma rawStats_sum : forall (F : EnterpriseTable.EnterpriseStat -> Z) (c : RiskRecord -> Z),
  (forall r s, F (EnterpriseTable.add_record r (count_or_one (count r)) s) = F s + c r) ->
  (forall r, F (EnterpriseTable.new_stat r) = 0) ->
  forall data, sumBy F (EnterpriseTable.rawStats data) = sumBy c data.
Proof.
  intros F c Hu Hi data.
  unfold EnterpriseTable.rawStats, EnterpriseTable.rawStats_map; rewrite rawStats_step_upsert.
  rewrite (upsert_fold_sum _ _ _ F c Hu Hi data [] (NoDup_nil _)). reflexivity.
Qed.

Lemma rawStats_keys : forall data,
  let m := EnterpriseTable.rawStats_map data in
  NoDup (map fst m) /\ Forall (fun kv => EnterpriseTable.id (snd kv) = fst kv) m /\
  (forall k, In k (map fst m) <-> exists r, In r data /\ enterpriseId r = k).
Proof.
  intros data; cbv zeta; unfold EnterpriseTable.rawStats_map; rewrite rawStats_step_upsert.
  split; [|split].
  - apply upsert_fold_nodup; constructor.
  - apply (upsert_fold_forall _ _ _ (fun k v => EnterpriseTable.id v = k)); auto.
  - intros k; rewrite upsert_fold_in_keys; simpl; split; [intros [[]|H]; exact H | auto].
Qed.

Lemma map_values_keys {V} : forall (kk : V -> string) (m : list (string * V)),
  Forall (fun kv => kk (snd kv) = fst kv) m -> map kk (map_values m) = map fst m.
Proof.
  intros kk m H; induction H as [|kv m Hkv H IH]; simpl; [reflexivity|].
  rewrite Hkv, IH; reflexivity.
Qed.

(* ================================================================= *)
(** ** [rawStats] *)

(** X3: the per-enterprise table adds up to the dashboard: summed over all
    rows, each of the table's eight counters equals the corresponding count
    of [calculateStats] on the same records. *)
Theorem rawStats_agrees_calculateStats (data : list RiskRecord) :
  let rows := EnterpriseTable.rawStats data in
  let s := calculateStats data in
  sumBy EnterpriseTable.total rows = totalDetections s /\
  sumBy EnterpriseTable.high rows = highRiskCount s /\
  sumBy EnterpriseTable.medium rows = mediumRiskCount s /\
  sumBy EnterpriseTable.low rows = lowRiskCount s /\
  sumBy EnterpriseTable.trueFraud rows = trueFraudCount s /\
  sumBy EnterpriseTable.suspected rows = suspectedFraudCount s /\
  sumBy EnterpriseTable.illegal rows = illegalBusinessCount s /\
  sumBy EnterpriseTable.falsePositive rows = falsePositiveCount s.
Proof.
  cbv zeta; cbn [calculateStats totalDetections highRiskCount mediumRiskCount
    lowRiskCount trueFraudCount suspectedFraudCount illegalBusinessCount
    falsePositiveCount].
  calc_field total; calc_field highRisk; calc_field medRisk; calc_field lowRisk;
  calc_field trueFraud; calc_field suspFraud; calc_field illegal; calc_field falsePos.
  repeat split; apply rawStats_sum; intros r; try reflexivity; intros s; rec_cases r.
Qed.

(** X4: the per-enterprise table has exactly one row per enterprise id
    occurring in the records, and no other row. *)
Theorem rawStats_one_row_per_enterprise (data : list RiskRecord) :
  NoDup (map EnterpriseTable.id (EnterpriseTable.rawStats data)) /\
  (forall k, In k (map EnterpriseTable.id (EnterpriseTable.rawStats data)) <->
             exists r, In r data /\ enterpriseId r = k).
Proof.
  destruct (rawStats_keys data) as [Hnd [Hid Hin]].
  unfold EnterpriseTable.rawStats; rewrite map_values_keys by exact Hid.
  split; [exact Hnd | exact Hin].
Qed.

(* ================================================================= *)
(** ** [dailyData] *)

Lemma Sorted_weaken {A} : forall (R R' : A -> A -> Prop) l,
  (forall a b, R a b -> R' a b) -> Sorted R l -> Sorted R' l.
Proof.
  intros R R' l H Hs; induction Hs as [|x l Hs IH Hhd]; constructor; [exact IH|].
  destruct Hhd; constructor; apply H; assumption.
Qed.

Lemma timestamp_anti : forall a b : DailyReportTable.DailyAggregatedData,
  DailyReportTable.timestamp a - DailyReportTable.timestamp b
  = - (DailyReportTable.timestamp b - DailyReportTable.timestamp a).
Proof. intros; lia. Qed.

Lemma dailyData_perm : forall f g data,
  Permutation (DailyReportTable.dailyData f g data)
              (map_values (fold_left (DailyReportTable.dailyData_step f g) data [])).
Proof.
  intros f g data; unfold DailyReportTable.dailyData; rewrite sort_desc_js.
  apply js_sort_perm.
Qed.

Lemma dailyData_sum : forall f g (F : DailyReportTable.DailyAggregatedData -> Z)
    (c : RiskRecord -> Z),
  (forall r s, F (DailyReportTable.add_record r (count_or_one (count r)) s) = F s + c r) ->
  (forall r, F (DailyReportTable.mkDaily (f (callTime r)) (g (callTime r)) 0 0 0 0) = 0) ->
  forall data, sumBy F (DailyReportTable.dailyData f g data) = sumBy c data.
Proof.
  intros f g F c Hu Hi data.
  rewrite (sumBy_perm F _ _ (dailyData_perm f g data)), dailyData_step_upsert.
  rewrite (upsert_fold_sum _ _ _ F c Hu Hi data [] (NoDup_nil _)). reflexivity.
Qed.

Lemma dailyData_keys : forall f g data,
  let m := fold_left (DailyReportTable.dailyData_step f g) data [] in
  NoDup (map fst m) /\ Forall (fun kv => DailyReportTable.date (snd kv) = fst kv) m /\
  (forall k, In k (map fst m) <-> exists r, In r data /\ f (callTime r) = k).
Proof.
  intros f g data; cbv zeta; rewrite dailyData_step_upsert.
  split; [|split].
  - apply upsert_fold_nodup; constructor.
  - apply (upsert_fold_forall _ _ _ (fun k v => DailyReportTable.date v = k)); auto.
  - intros k; rewrite upsert_fold_in_keys; simpl; split; [intros [[]|H]; exact H | auto].
Qed.

(** X5: the daily report adds up to the dashboard: summed over all days,
    the daily total, high, medium and low counts equal [totalDetections],
    [highRiskCount], [mediumRiskCount] and [lowRiskCount] of
    [calculateStats], whatever the time zone. *)
Theorem dailyData_agrees_calculateStats (toLocaleDateString : Z -> string)
    (startOfLocalDay : Z -> Z) (data : list RiskRecord) :
  let rows := DailyReportTable.dailyData toLocaleDateString startOfLocalDay data in
  let s := calculateStats data in
  sumBy DailyReportTable.total rows = totalDetections s /\
  sumBy DailyReportTable.high rows = highRiskCount s /\
  sumBy DailyReportTable.medium rows = mediumRiskCount s /\
  sumBy DailyReportTable.low rows = lowRiskCount s.
Proof.
  cbv zeta; cbn [calculateStats totalDetections highRiskCount mediumRiskCount
    lowRiskCount].
  calc_field total; calc_field highRisk; calc_field medRisk; calc_field lowRisk.
  repeat split; apply dailyData_sum; intros r; try reflexivity; intros s; rec_cases r.
Qed.

(** X6: the daily report has exactly one row per local date occurring in
    the records, and its rows are ordered from the latest day to the
    earliest ([timestamp] not increasing). *)
Theorem dailyData_rows (toLocaleDateString : Z -> string)
    (startOfLocalDay : Z -> Z) (data : list RiskRecord) :
  let rows := DailyReportTable.dailyData toLocaleDateString startOfLocalDay data in
  NoDup (map DailyReportTable.date rows) /\
  (forall k, In k (map DailyReportTable.date rows) <->
             exists r, In r data /\ toLocaleDateString (callTime r) = k) /\
  Sorted (fun a b => DailyReportTable.timestamp b <= DailyReportTable.timestamp a) rows.
Proof.
  cbv zeta.
  destruct (dailyData_keys toLocaleDateString startOfLocalDay data) as [Hnd [Hd Hin]].
  pose proof (Permutation_map DailyReportTable.date
                (dailyData_perm toLocaleDateString startOfLocalDay data)) as Hp.
  rewrite map_values_keys in Hp by exact Hd.
  split; [|split].
  - eapply Permutation_NoDup; [symmetry; exact Hp | exact Hnd].
  - intros k; rewrite <- Hin; split; apply Permutation_in; [exact Hp | symmetry; exact Hp].
  - unfold DailyReportTable.dailyData; rewrite sort_desc_js.
    eapply Sorted_weaken; [|apply js_sort_sorted, timestamp_anti].
    unfold cmp_le; intros a b H; lia.
Qed.

(* ================================================================= *)
(** ** [drillDownData] *)





Lemma drill_fold : forall l t m,
  fold_left DrillDown.drill_step l (t, m)
  = (t + sumBy (fun r => count_or_one (count r)) l,
     fold_left (upsert_step enterpriseId
                  (fun r => DrillDown.Ent.mk (enterpriseId r) (enterpriseName r) 0)
                  (fun r e => DrillDown.Ent.mk (DrillDown.Ent.id e) (DrillDown.Ent.name e)
                                (DrillDown.Ent.count e + count_or_one (count r)))) l m).
Proof.
  induction l as [|r l IH]; intros t m; simpl; [f_equal; lia|].
  rewrite IH; f_equal; lia.
Qed.

Lemma drill_map_facts : forall l,
  let M := fold_left (upsert_step enterpriseId
                  (fun r => DrillDown.Ent.mk (enterpriseId r) (enterpriseName r) 0)
                  (fun r e => DrillDown.Ent.mk (DrillDown.Ent.id e) (DrillDown.Ent.name e)
                                (DrillDown.Ent.count e + count_or_one (count r)))) l [] in
  sumBy DrillDown.Ent.count (map_values M) = sumBy (fun r => count_or_one (count r)) l /\
  NoDup (map fst M) /\ Forall (fun kv => DrillDown.Ent.id (snd kv) = fst kv) M /\
  (forall k, In k (map fst M) <-> exists r, In r l /\ enterpriseId r = k).
Proof.
  intros l; cbv zeta; split; [|split; [|split]].
  - rewrite (upsert_fold_sum _ _ _ DrillDown.Ent.count (fun r => count_or_one (count r)));
      [reflexivity | reflexivity | reflexivity | constructor].
  - apply upsert_fold_nodup; constructor.
  - apply (upsert_fold_forall _ _ _ (fun k v => DrillDown.Ent.id v = k)); auto.
  - intros k; rewrite upsert_fold_in_keys; simpl; split; [intros [[]|H]; exact H | auto].
Qed.

Lemma item_count_anti : forall a b : DrillDown.Item.t,
  DrillDown.Item.count a - DrillDown.Item.count b
  = - (DrillDown.Item.count b - DrillDown.Item.count a).
Proof. intros; lia. Qed.


(** X8: the drill-down list is ordered by decreasing count, names each
    enterprise once, and lists only enterprises with a HIGH or MEDIUM
    record on the selected day. *)
Theorem drillDownData_list (toLocaleDateString : Z -> string)
    (selectedDate : option string) (data : list RiskRecord) :
  match DrillDown.drillDownData toLocaleDateString selectedDate data with
  | Some (_, list) =>
      Sorted (fun a b => DrillDown.Item.count b <= DrillDown.Item.count a) list /\
      NoDup (map DrillDown.Item.id list) /\
      (forall i, In i list ->
         exists r, In r data /\ enterpriseId r = DrillDown.Item.id i /\
                   Some (toLocaleDateString (callTime r)) = selectedDate /\
                   is_high r || is_medium r = true)
  | None => True
  end.
Proof.
  destruct selectedDate as [[|c s]|]; [exact I | | exact I].
  unfold DrillDown.drillDownData; rewrite drill_fold; cbv beta iota zeta.
  set (TR := DrillDown.targetRecords toLocaleDateString (String c s) data).
  destruct (drill_map_facts TR) as [_ [Hnd [Hid Hin]]]; cbv zeta in Hnd, Hid, Hin.
  set (M := fold_left _ TR []) in *.
  set (T := 0 + sumBy (fun r => count_or_one (count r)) TR).
  set (items := map _ (map_values M)).
  assert (Hids : map DrillDown.Item.id items = map fst M).
  { unfold items; rewrite map_map, <- (map_values_keys DrillDown.Ent.id M Hid).
    unfold map_values; rewrite !map_map; reflexivity. }
  split; [|split].
  - eapply Sorted_weaken; [|apply js_sort_sorted, item_count_anti].
    unfold cmp_le; intros a b H; lia.
  - eapply Permutation_NoDup; [apply Permutation_map; symmetry; apply js_sort_perm|].
    rewrite Hids; exact Hnd.
  - intros i Hi.
    apply (Permutation_in _ (js_sort_perm _ _)) in Hi.
    assert (Hk : In (DrillDown.Item.id i) (map fst M))
      by (rewrite <- Hids; apply in_map; exact Hi).
    apply Hin in Hk as [r [Hr Hrid]].
    unfold TR, DrillDown.targetRecords in Hr; apply filter_In in Hr as [Hr Hp].
    apply andb_prop in Hp as [Hd Hhm]; apply String.eqb_eq in Hd.
    exists r; repeat split; [exact Hr | exact Hrid | rewrite Hd; reflexivity | exact Hhm].
Qed.

(** X9: the drill-down of a row of the daily report is consistent with
    that row: for a row of [dailyData] whose date is not empty, the
    drill-down opened on that date (with the same date formatting) shows
    the row's [high + medium] as its total. *)
Theorem drillDown_matches_dailyRow (toLocaleDateString : Z -> string)
    (startOfLocalDay : Z -> Z) (data : list RiskRecord)
    (row : DailyReportTable.DailyAggregatedData)
    (Hrow : In row (DailyReportTable.dailyData toLocaleDateString startOfLocalDay data))
    (Hne : DailyReportTable.date row <> EmptyString) :
  exists list,
    DrillDown.drillDownData toLocaleDateString (Some (DailyReportTable.date row)) data
    = Some (DailyReportTable.high row + DailyReportTable.medium row, list).
Proof.
  destruct (dailyData_keys toLocaleDateString startOfLocalDay data) as [Hnd [Hd _]].
  set (M := fold_left (DailyReportTable.dailyData_step toLocaleDateString startOfLocalDay)
              data []) in *.
  assert (Hg : map_get M (DailyReportTable.date row) = Some row).
  { apply in_values_get_gen; [exact Hnd | exact Hd |].
    eapply Permutation_in; [apply dailyData_perm | exact Hrow]. }
  assert (Hacc : DailyReportTable.high row + DailyReportTable.medium row
                 = get_or (fun s => DailyReportTable.high s + DailyReportTable.medium s)
                     M (DailyReportTable.date row))
    by (unfold get_or; rewrite Hg; reflexivity).
  unfold M in Hacc; rewrite dailyData_step_upsert in Hacc.
  rewrite (upsert_fold_get_or _ _ _ _
             (fun r => (if is_high r then count_or_one (count r) else 0)
                       + (if is_high r then 0 else if is_medium r
                          then count_or_one (count r) else 0))) in Hacc;
    [| intros r s; rec_cases r | reflexivity].
  unfold get_or in Hacc; cbn in Hacc.
  rewrite Hacc; clear Hacc Hg Hrow Hd Hnd M.
  remember (DailyReportTable.date row) as sd eqn:Esd; clear Esd row.
  destruct sd as [|c s]; [contradiction|].
  unfold DrillDown.drillDownData; rewrite drill_fold; cbv beta iota zeta.
  eexists; f_equal; f_equal.
  unfold DrillDown.targetRecords; rewrite sumBy_filter.
  apply sumBy_ext; intros r _.
  destruct (String.eqb (toLocaleDateString (callTime r)) (String c s)); cbn;
    [rec_cases r | reflexivity].
Qed.

(* ================================================================= *)
(** ** Charts *)

Lemma sumBy_cons {A} : forall (f : A -> Z) x l, sumBy f (x :: l) = f x + sumBy f l.
Proof. reflexivity. Qed.

Lemma sumBy_add {A} : forall (f g : A -> Z) l,
  sumBy f l + sumBy g l = sumBy (fun x => f x + g x) l.
Proof. intros f g; induction l as [|x l IH]; simpl; lia. Qed.

Lemma pie_fold : forall l h m lo,
  fold_left Charts.pie_step l (h, m, lo)
  = (h + sumBy (fun d => if is_high d then count_or_one (count d) else 0) l,
     m + sumBy (fun d => if is_medium d then count_or_one (count d) else 0) l,
     lo + sumBy (fun d => if is_low d then count_or_one (count d) else 0) l).
Proof.
  induction l as [|d l IH]; intros h m lo; simpl; [f_equal; [f_equal|]; lia|].
  rewrite IH; f_equal; [f_equal|];
    destruct (is_high d), (is_medium d), (is_low d); lia.
Qed.

Lemma outcome_fold : forall l tf sf il fp,
  fold_left Charts.outcome_step l (tf, sf, il, fp)
  = (tf + sumBy (fun d => if result_is ReviewResult.TRUE_FRAUD d
                          then count_or_one (count d) else 0) l,
     sf + sumBy (fun d => if result_is ReviewResult.SUSPECTED_FRAUD d
                          then count_or_one (count d) else 0) l,
     il + sumBy (fun d => if result_is ReviewResult.ILLEGAL_BUSINESS d
                          then count_or_one (count d) else 0) l,
     fp + sumBy (fun d => if result_is ReviewResult.FALSE_POSITIVE d
                          then count_or_one (count d) else 0) l).
Proof.
  induction l as [|d l IH]; intros tf sf il fp;
    [simpl; f_equal; [f_equal; [f_equal|]|]; lia|].
  cbn [fold_left]; rewrite !sumBy_cons.
  assert (Hs : Charts.outcome_step (tf, sf, il, fp) d
    = (tf + (if result_is ReviewResult.TRUE_FRAUD d then count_or_one (count d) else 0),
       sf + (if result_is ReviewResult.SUSPECTED_FRAUD d then count_or_one (count d) else 0),
       il + (if result_is ReviewResult.ILLEGAL_BUSINESS d then count_or_one (count d) else 0),
       fp + (if result_is ReviewResult.FALSE_POSITIVE d then count_or_one (count d) else 0)))
    by (unfold Charts.outcome_step, result_is; destruct (reviewResult d);
        f_equal; try f_equal; try f_equal; lia).
  rewrite Hs, IH; cbv beta; f_equal; [f_equal; [f_equal|]|]; lia.
Qed.

(** X10: the pie of risk levels ([Charts.tsx]) shows the dashboard's
    counts: its three values are [highRiskCount], [mediumRiskCount] and
    [lowRiskCount] of [calculateStats], in this order. *)
Theorem riskPie_agrees_calculateStats (data : list RiskRecord) :
  map Charts.value (Charts.RiskDistributionPie_stats data)
  = [highRiskCount (calculateStats data); mediumRiskCount (calculateStats data);
     lowRiskCount (calculateStats data)].
Proof.
  unfold Charts.RiskDistributionPie_stats; rewrite pie_fold.
  cbn [calculateStats highRiskCount mediumRiskCount lowRiskCount map Charts.value].
  calc_field highRisk; calc_field medRisk; calc_field lowRisk.
  rewrite !Z.add_0_l; repeat match goal with |- (_ :: _) = (_ :: _) => f_equal end;
    apply sumBy_ext; intros r _; rec_cases r.
Qed.

(** X11: the review-outcome chart shows the dashboard's outcome counts:
    its four values are [trueFraudCount], [suspectedFraudCount],
    [illegalBusinessCount] and [falsePositiveCount] of [calculateStats];
    pending results of reviewed records are counted nowhere. *)
Theorem outcomeChart_agrees_calculateStats (data : list RiskRecord) :
  map Charts.value (Charts.ReviewOutcomeChart_stats data)
  = [trueFraudCount (calculateStats data); suspectedFraudCount (calculateStats data);
     illegalBusinessCount (calculateStats data); falsePositiveCount (calculateStats data)].
Proof.
  unfold Charts.ReviewOutcomeChart_stats; rewrite outcome_fold.
  cbn [calculateStats trueFraudCount suspectedFraudCount illegalBusinessCount
       falsePositiveCount map Charts.value].
  calc_field trueFraud; calc_field suspFraud; calc_field illegal; calc_field falsePos.
  rewrite !Z.add_0_l, !sumBy_filter;
    repeat match goal with |- (_ :: _) = (_ :: _) => f_equal end;
    apply sumBy_ext; intros r _; rec_cases r.
Qed.

Lemma trend_sum : forall toLocaleDateString (F : Charts.TrendRow -> Z) (c : RiskRecord -> Z),
  (forall r v, F (Charts.trend_add r v) = F v + c r) ->
  (forall r, F (Charts.mkTrend (toLocaleDateString (callTime r)) 0 0 0) = 0) ->
  forall data, sumBy F (Charts.RiskTrendChart_dailyStats toLocaleDateString data)
               = sumBy c data.
Proof.
  intros f F c Hu Hi data; unfold Charts.RiskTrendChart_dailyStats, Charts.trend_step.
  rewrite <- (sumBy_perm _ _ _ (Permutation_rev _)).
  rewrite (upsert_fold_sum _ _ _ F c Hu Hi data [] (NoDup_nil _)). reflexivity.
Qed.

(** X12: the trend chart has one entry per local date occurring in the
    records, and its per-date high, medium and low counts add up to the
    dashboard's [highRiskCount], [mediumRiskCount] and [lowRiskCount]. *)
Theorem trendChart_rows (toLocaleDateString : Z -> string) (data : list RiskRecord) :
  let rows := Charts.RiskTrendChart_dailyStats toLocaleDateString data in
  let s := calculateStats data in
  sumBy Charts.high rows = highRiskCount s /\
  sumBy Charts.medium rows = mediumRiskCount s /\
  sumBy Charts.low rows = lowRiskCount s /\
  NoDup (map Charts.date rows) /\
  (forall k, In k (map Charts.date rows) <->
             exists r, In r data /\ toLocaleDateString (callTime r) = k).
Proof.
  cbv zeta; unfold Charts.RiskTrendChart_dailyStats, Charts.trend_step.
  set (M := fold_left _ data []).
  assert (Hd : Forall (fun kv => Charts.date (snd kv) = fst kv) M).
  { apply (upsert_fold_forall _ _ _ (fun k v => Charts.date v = k)); [reflexivity| |constructor].
    intros r v H; unfold Charts.trend_add; destruct (riskLevel r); exact H. }
  assert (Hp : Permutation (map Charts.date (rev (map_values M))) (map fst M)).
  { rewrite <- (map_values_keys Charts.date M Hd), map_rev.
    symmetry; apply Permutation_rev. }
  cbn [calculateStats highRiskCount mediumRiskCount lowRiskCount].
  calc_field highRisk; calc_field medRisk; calc_field lowRisk.
  split; [|split; [|split; [|split]]].
  1-3: apply trend_sum; intros r; [intros v; unfold Charts.trend_add; rec_cases r
                                  | reflexivity].
  - eapply Permutation_NoDup; [symmetry; exact Hp|].
    apply upsert_fold_nodup; constructor.
  - intros k; split; intros H.
    + apply (Permutation_in _ Hp), upsert_fold_in_keys in H as [[]|H]; exact H.
    + apply (Permutation_in _ (Permutation_sym Hp)), upsert_fold_in_keys; right; exact H.
Qed.

(* ================================================================= *)
(** ** Rates *)

Lemma rate_bounds : forall a b, 0 <= a <= b ->
  (0 <= (if b >? 0 then (inject_Z a / inject_Z b) * inject_Z 100 else 0) <= 100)%Q.
Proof.
  intros a b Hab; destruct (Z.gtb_spec b 0) as [Hb|Hb].
  - destruct b as [|p|p]; try lia.
    unfold Qle, Qdiv, Qmult, Qinv, inject_Z; simpl; split; nia.
  - split; unfold Qle; simpl; lia.
Qed.

Lemma nonneg_weight : forall data, Forall nonneg_count data ->
  forall d, In d data -> 0 <= count_or_one (count d).
Proof.
  intros data H d Hd; rewrite Forall_forall in H.
  pose proof (count_or_one_nonneg d (H d Hd)); lia.
Qed.

(** X13: the pie of [DailyReportTable.tsx] counts the dashboard's high,
    medium and low records, draws no empty slice, and, when no count is
    negative, shows a safety rate between 0 and 100 percent. *)
Theorem safetyPie_stats (data : list RiskRecord) (Hc : Forall nonneg_count data) :
  let st := SafetyPie.RiskDistributionPie_stats data in
  let s := calculateStats data in
  SafetyPie.h st = highRiskCount s /\ SafetyPie.m st = mediumRiskCount s /\
  SafetyPie.l st = lowRiskCount s /\
  SafetyPie.total st = SafetyPie.h st + SafetyPie.m st + SafetyPie.l st /\
  (0 <= SafetyPie.safetyRate st <= 100)%Q /\
  Forall (fun e => 0 < Charts.value e) (SafetyPie.pieData st).
Proof.
  pose proof (nonneg_weight data Hc) as Hw.
  cbv zeta; unfold SafetyPie.RiskDistributionPie_stats; rewrite pie_fold.
  cbn [calculateStats highRiskCount mediumRiskCount lowRiskCount SafetyPie.h SafetyPie.m
       SafetyPie.l SafetyPie.total SafetyPie.safetyRate SafetyPie.pieData].
  calc_field highRisk; calc_field medRisk; calc_field lowRisk.
  rewrite !Z.add_0_l.
  set (H := sumBy (fun d => if is_high d then count_or_one (count d) else 0) data).
  set (Me := sumBy (fun d => if is_medium d then count_or_one (count d) else 0) data).
  set (L := sumBy (fun d => if is_low d then count_or_one (count d) else 0) data).
  assert (HH : 0 <= H) by (apply sumBy_nonneg; intros d Hd; pose proof (Hw d Hd);
                           destruct (is_high d); lia).
  assert (HM : 0 <= Me) by (apply sumBy_nonneg; intros d Hd; pose proof (Hw d Hd);
                            destruct (is_medium d); lia).
  assert (HL : 0 <= L) by (apply sumBy_nonneg; intros d Hd; pose proof (Hw d Hd);
                           destruct (is_low d); lia).
  split; [|split; [|split; [|split; [|split]]]].
  1-3: apply sumBy_ext; intros r _; rec_cases r.
  - reflexivity.
  - apply rate_bounds; lia.
  - apply Forall_forall; intros e He; apply filter_In in He as [_ He].
    apply Z.gtb_lt in He; exact He.
Qed.

(** X14: when no count is negative, the three rates of [calculateStats]
    (review completion, high-risk share, accuracy) lie between 0 and 100
    percent. *)
Theorem calculateStats_rates_bounded (data : list RiskRecord)
    (Hc : Forall nonneg_count data) :
  let s := calculateStats data in
  (0 <= reviewCompletionRate s <= 100)%Q /\ (0 <= highRiskRate s <= 100)%Q /\
  (0 <= accuracyRate s <= 100)%Q.
Proof.
  pose proof (nonneg_weight data Hc) as Hw.
  cbv zeta; cbn [calculateStats reviewCompletionRate highRiskRate accuracyRate].
  split; [|split]; apply rate_bounds.
  - calc_field highRiskReviewed; calc_field mediumRiskReviewed;
    calc_field highRisk; calc_field medRisk.
    rewrite !sumBy_add; split; [apply sumBy_nonneg | apply sumBy_le];
      intros r Hr; pose proof (Hw r Hr); rec_cases r.
  - calc_field highRisk; calc_field total.
    split; [apply sumBy_nonneg | apply sumBy_le];
      intros r Hr; pose proof (Hw r Hr); rec_cases r.
  - calc_field trueFraud; calc_field suspFraud; calc_field illegal; calc_field reviewedTotal.
    rewrite !sumBy_add; split; [apply sumBy_nonneg | apply sumBy_le];
      intros r Hr; pose proof (Hw r Hr); rec_cases r.
Qed.

(* ================================================================= *)
(** ** Order and batches *)

Lemma stats_step_comm : forall a x y,
  stats_step (stats_step a x) y = stats_step (stats_step a y) x.
Proof.
  intros [] x y; unfold stats_step; cbn; f_equal; lia.
Qed.

Lemma fold_stats_perm : forall l l', Permutation l l' ->
  forall a, fold_left stats_step l a = fold_left stats_step l' a.
Proof.
  intros l l' H; induction H as [|x l l' H IH|x y l|l l' l'' H1 IH1 H2 IH2];
    intros a; simpl.
  - reflexivity.
  - apply IH.
  - rewrite stats_step_comm; reflexivity.
  - rewrite IH1; apply IH2.
Qed.

Lemma calc_proj_app : forall P : StatsAcc -> Z,
  (forall a d, P (stats_step a d) = P a + P (stats_step acc0 d)) -> P acc0 = 0 ->
  forall l1 l2, P (fold_left stats_step (l1 ++ l2) acc0)
                = P (fold_left stats_step l1 acc0) + P (fold_left stats_step l2 acc0).
Proof.
  intros P Hs H0 l1 l2; rewrite fold_left_app, (fold_stats_proj P Hs).
  rewrite (fold_stats_proj P Hs l2 acc0), H0; lia.
Qed.

(** X15: [calculateStats] does not depend on the order of the records:
    any reordering of the input gives the same dashboard, rates
    included. *)
Theorem calculateStats_order_independent (l l' : list RiskRecord)
    (H : Permutation l l') :
  calculateStats l = calculateStats l'.
Proof.
  unfold calculateStats; rewrite (fold_stats_perm l l' H); reflexivity.
Qed.

(** X16: every count of [calculateStats] is additive over batches: the
    counts of [l1 ++ l2] are the sums of the counts of [l1] and of [l2]. *)
Theorem calculateStats_counts_additive (l1 l2 : list RiskRecord) :
  let s := calculateStats (l1 ++ l2) in
  let s1 := calculateStats l1 in
  let s2 := calculateStats l2 in
  totalDetections s = totalDetections s1 + totalDetections s2 /\
  highRiskCount s = highRiskCount s1 + highRiskCount s2 /\
  mediumRiskCount s = mediumRiskCount s1 + mediumRiskCount s2 /\
  lowRiskCount s = lowRiskCount s1 + lowRiskCount s2 /\
  highRiskReviewedCount s = highRiskReviewedCount s1 + highRiskReviewedCount s2 /\
  mediumRiskReviewedCount s = mediumRiskReviewedCount s1 + mediumRiskReviewedCount s2 /\
  reviewedCount s = reviewedCount s1 + reviewedCount s2 /\
  trueFraudCount s = trueFraudCount s1 + trueFraudCount s2 /\
  suspectedFraudCount s = suspectedFraudCount s1 + suspectedFraudCount s2 /\
  illegalBusinessCount s = illegalBusinessCount s1 + illegalBusinessCount s2 /\
  falsePositiveCount s = falsePositiveCount s1 + falsePositiveCount s2.
Proof.
  cbv zeta; cbn [calculateStats totalDetections highRiskCount mediumRiskCount
    lowRiskCount highRiskReviewedCount mediumRiskReviewedCount reviewedCount
    trueFraudCount suspectedFraudCount illegalBusinessCount falsePositiveCount].
  repeat split; apply calc_proj_app; (proj_step_tac || reflexivity).
Qed.

(* ================================================================= *)
(** ** Time windows *)

(** X17: the preset time windows are nested as their labels say: a record
    kept by "today" or by "yesterday" is kept by "last 7 days", one kept
    by "last 7 days" is kept by "last 30 days", and no record is both
    today's and yesterday's, in every time zone and at every instant. *)
Theorem timeWindows_nested (tz : Z) (range : TimeWindow.CustomDateRange) (now : Z)
    (d : RiskRecord) :
  let kp f := TimeWindow.keep tz f range now d in
  implb (kp TimeWindow.today) (kp TimeWindow.days7) = true /\
  implb (kp TimeWindow.yesterday) (kp TimeWindow.days7) = true /\
  implb (kp TimeWindow.days7) (kp TimeWindow.days30) = true /\
  negb (kp TimeWindow.today && kp TimeWindow.yesterday) = true.
Proof.
  cbv zeta; unfold TimeWindow.keep.
  destruct (TimeWindow.civil_from_days _) as [[y m] dd].
  set (s := TimeWindow.newLocalDate tz y m dd).
  unfold TimeWindow.addLocalDays, TimeWindow.localTime, TimeWindow.utc,
         TimeWindow.msPerDay.
  repeat match goal with
  | |- context [?a <=? ?b] => destruct (Z.leb_spec a b)
  | |- context [?a <? ?b] => destruct (Z.ltb_spec a b)
  end; cbn; repeat split; lia.
Qed.

(* ================================================================= *)
(** ** Review outcomes *)

(** X18: when every reviewed record carries a final (non-pending) result,
    the four outcome counts of [calculateStats] add up to [reviewedCount]:
    each reviewed record is counted under exactly one outcome. *)
Theorem calculateStats_outcomes_cover_reviewed (data : list RiskRecord)
    (Hr : Forall (fun d => is_reviewed d = true ->
                           reviewResult d <> ReviewResult.PENDING) data) :
  let s := calculateStats data in
  trueFraudCount s + suspectedFraudCount s + illegalBusinessCount s
    + falsePositiveCount s = reviewedCount s.
Proof.
  cbv zeta; cbn [calculateStats trueFraudCount suspectedFraudCount
    illegalBusinessCount falsePositiveCount reviewedCount].
  calc_field trueFraud; calc_field suspFraud; calc_field illegal; calc_field falsePos;
  calc_field reviewedTotal.
  rewrite !sumBy_add; apply sumBy_ext; intros r Hin.
  rewrite Forall_forall in Hr; specialize (Hr r Hin).
  unfold is_reviewed in Hr; cbn; unfold is_high, is_medium, is_low, is_reviewed.
  destruct (reviewStatus r), (reviewResult r), (riskLevel r); cbn; try lia;
    exfalso; apply Hr; reflexivity.
Qed.

(* ================================================================= *)
(** ** Generated review fields *)

Lemma floor3 : forall u, (0 <= u < 1)%Q -> 0 <= Qfloor (u * inject_Z 3) < 3.
Proof.
  intros [p q] [H0 H1]; unfold Qle, Qlt in *; simpl in *.
  split; [apply Z.div_pos; lia | apply Z.div_lt_upper_bound; lia].
Qed.

(** X19: [createSingleRecord] fills the review fields consistently: a
    record is REVIEWED exactly when its result is not PENDING, and exactly
    when it has a reviewer; a LOW (or NORMAL) record is never labelled as
    fraud or illegal business. The reviewer draw is a value of
    [Math.random()], in [0, 1). *)
Theorem createSingleRecord_review_consistent (level : RiskLevel.t) (u1 u2 u3 : Q)
    (Hu3 : (0 <= u3 < 1)%Q) :
  let '(status, result, reviewer) := MockData.createSingleRecord_review level u1 u2 u3 in
  (status = ReviewStatus.REVIEWED <-> result <> ReviewResult.PENDING) /\
  (status = ReviewStatus.REVIEWED <-> reviewer <> None) /\
  (level <> RiskLevel.HIGH -> level <> RiskLevel.MEDIUM ->
     result <> ReviewResult.TRUE_FRAUD /\ result <> ReviewResult.SUSPECTED_FRAUD /\
     result <> ReviewResult.ILLEGAL_BUSINESS).
Proof.
  pose proof (floor3 u3 Hu3) as Hf.
  unfold MockData.createSingleRecord_review.
  set (i := Qfloor (u3 * inject_Z 3)) in *.
  assert (Hi : MockData.index MockData.reviewers i <> None).
  { unfold MockData.index; destruct (Z.ltb_spec i 0); [lia|].
    assert (i = 0 \/ i = 1 \/ i = 2) as [ -> | [ -> | -> ] ] by lia; discriminate. }
  destruct level;
    repeat match goal with |- context [MockData.gt_q ?u ?x] => destruct (MockData.gt_q u x) end;
    cbv iota; repeat split; intros; try discriminate; try congruence; tauto.
Qed.

(* ================================================================= *)
(** ** CSV export *)

Lemma split_on_app : forall c a b, no_char c a = true ->
  split_on c (String.append a (String c b)) = a :: split_on c b.
Proof.
  intros c a b; induction a as [|x a IH]; intros H; simpl.
  - rewrite Ascii.eqb_refl; reflexivity.
  - simpl in H; apply andb_prop in H as [Hx H].
    apply negb_true_iff in Hx; rewrite Hx, IH by exact H; reflexivity.
Qed.

Lemma split_on_none : forall c a, no_char c a = true -> split_on c a = [a].
Proof.
  intros c a; induction a as [|x a IH]; intros H; simpl; [reflexivity|].
  simpl in H; apply andb_prop in H as [Hx H].
  apply negb_true_iff in Hx; rewrite Hx, IH by exact H; reflexivity.
Qed.

Lemma split_join : forall c l, l <> [] -> Forall (fun s => no_char c s = true) l ->
  split_on c (EnterpriseExport.join c l) = l.
Proof.
  intros c l; induction l as [|x l IH]; intros Hne H; [congruence|].
  apply Forall_cons_iff in H as [Hx H].
  destruct l as [|y l].
  - apply split_on_none, Hx.
  - change (EnterpriseExport.join c (x :: y :: l))
      with (String.append x (String c (EnterpriseExport.join c (y :: l)))).
    rewrite split_on_app by exact Hx. rewrite IH; [reflexivity | discriminate | exact H].
Qed.

Lemma no_char_append : forall c a b,
  no_char c (String.append a b) = no_char c a && no_char c b.
Proof.
  intros c a b; induction a as [|x a IH]; simpl; [reflexivity|].
  rewrite IH, andb_assoc; reflexivity.
Qed.

Lemma no_char_join : forall c sep l, Ascii.eqb sep c = false ->
  Forall (fun s => no_char c s = true) l -> no_char c (EnterpriseExport.join sep l) = true.
Proof.
  intros c sep l Hsep; induction l as [|x l IH]; intros H; [reflexivity|].
  apply Forall_cons_iff in H as [Hx H].
  destruct l as [|y l]; [exact Hx|].
  change (EnterpriseExport.join sep (x :: y :: l))
    with (String.append x (String sep (EnterpriseExport.join sep (y :: l)))).
  rewrite no_char_append, Hx; cbn [no_char]; rewrite Hsep; apply IH, H.
Qed.

Lemma digits_no_char : forall c,
  (forall k, (k < 10)%nat -> nat_of_ascii c <> (48 + k)%nat) ->
  forall fuel n acc, no_char c acc = true ->
  no_char c (EnterpriseExport.digits fuel n acc) = true.
Proof.
  intros c Hc; induction fuel as [|f IH]; intros n acc H; cbn [EnterpriseExport.digits];
    [exact H|].
  assert (Hd : no_char c (String (ascii_of_nat (48 + Z.to_nat (n mod 10))) acc) = true).
  { cbn [no_char]; rewrite H, andb_true_r; apply negb_true_iff.
    destruct (Ascii.eqb_spec (ascii_of_nat (48 + Z.to_nat (n mod 10))) c) as [E|E];
      [|reflexivity].
    exfalso; apply (Hc (Z.to_nat (n mod 10))).
    - pose proof (Z.mod_pos_bound n 10); lia.
    - rewrite <- E, nat_ascii_embedding; [reflexivity|].
      pose proof (Z.mod_pos_bound n 10); lia. }
  destruct (Z.ltb n 10); [exact Hd | apply IH, Hd].
Qed.

Lemma number_no_char : forall c n,
  (nat_of_ascii c < 48 \/ 57 < nat_of_ascii c)%nat -> nat_of_ascii c <> 45%nat ->
  no_char c (EnterpriseExport.number_to_string n) = true.
Proof.
  intros c n Hc H45; unfold EnterpriseExport.number_to_string.
  assert (Hds : forall m, no_char c (EnterpriseExport.digits
                  (S (Z.to_nat (Z.log2 m))) m EmptyString) = true).
  { intros m; apply digits_no_char; [intros k Hk; lia | reflexivity]. }
  destruct (Z.ltb n 0); [|apply Hds].
  cbn [no_char]; rewrite Hds, andb_true_r; apply negb_true_iff.
  destruct (Ascii.eqb_spec "-" c) as [E|E]; [|reflexivity].
  subst c; exfalso; apply H45; reflexivity.
Qed.

(** X20: the exported CSV body reads back as the table: when no
    enterprise name or id contains a comma or a line break, splitting the
    body at line breaks and each line at commas gives the header row and
    then, for each displayed row in order, its name, its id and its seven
    counters as decimal strings. *)
Theorem csv_body_reads_back (rows : list EnterpriseTable.EnterpriseStat)
    (Hsafe : Forall (fun r =>
       no_char EnterpriseExport.comma (EnterpriseTable.name r)
       && no_char EnterpriseExport.newline (EnterpriseTable.name r)
       && no_char EnterpriseExport.comma (EnterpriseTable.id r)
       && no_char EnterpriseExport.newline (EnterpriseTable.id r) = true) rows) :
  map (split_on EnterpriseExport.comma)
      (split_on EnterpriseExport.newline (EnterpriseExport.csv_body rows))
  = EnterpriseExport.headers ::
    map (fun r =>
           [EnterpriseTable.name r; EnterpriseTable.id r;
            EnterpriseExport.number_to_string (EnterpriseTable.high r);
            EnterpriseExport.number_to_string (EnterpriseTable.medium r);
            EnterpriseExport.number_to_string (EnterpriseTable.low r);
            EnterpriseExport.number_to_string (EnterpriseTable.trueFraud r);
            EnterpriseExport.number_to_string (EnterpriseTable.suspected r);
            EnterpriseExport.number_to_string (EnterpriseTable.illegal r);
            EnterpriseExport.number_to_string (EnterpriseTable.falsePositive r)]) rows.
Proof.
  assert (Hnc : forall n, no_char EnterpriseExport.comma
                            (EnterpriseExport.number_to_string n) = true)
    by (intros n; apply number_no_char; cbn; lia).
  assert (Hnn : forall n, no_char EnterpriseExport.newline
                            (EnterpriseExport.number_to_string n) = true)
    by (intros n; apply number_no_char; cbn; lia).
  rewrite Forall_forall in Hsafe.
  unfold EnterpriseExport.csv_body.
  rewrite split_join.
  - cbn [map]; f_equal; try reflexivity.
    rewrite map_map; apply map_ext_in; intros r Hr.
    specialize (Hsafe r Hr); apply andb_prop in Hsafe as [Hs Hin].
    apply andb_prop in Hs as [Hs Hic]; apply andb_prop in Hs as [Hnc' Hnn'].
    unfold EnterpriseExport.row_line; apply split_join; [discriminate|].
    repeat constructor; auto.
  - discriminate.
  - constructor; [reflexivity|].
    apply Forall_forall; intros line Hl; apply in_map_iff in Hl as [r [<- Hr]].
    specialize (Hsafe r Hr); apply andb_prop in Hsafe as [Hs Hin].
    apply andb_prop in Hs as [Hs Hic]; apply andb_prop in Hs as [Hnc' Hnn'].
    unfold EnterpriseExport.row_line; apply no_char_join; [reflexivity|].
    repeat constructor; auto.
Qed.

(* ================================================================= *)
(** ** Stability of [js_sort] *)

Lemma filter_none {A} (f : A -> bool) : forall l,
  (forall x, In x l -> f x = false) -> filter f l = [].
Proof.
  induction l as [|x l IH]; intros H; simpl; [reflexivity|].
  rewrite (H x (or_introl eq_refl)); apply IH; intros y Hy; apply H; right; exact Hy.
Qed.

Section JsSortStable.
Context {A : Type} (cmp : A -> A -> Z) (g : A -> Z).
Hypothesis cmp_trans : forall a b c, cmp a b <= 0 -> cmp b c <= 0 -> cmp a c <= 0.
Hypothesis cmp_eq : forall a b, g a = g b -> cmp a b = 0.

Lemma js_insert_filter_other : forall v x l, (g x =? v) = false ->
  filter (fun y => g y =? v) (js_insert cmp x l) = filter (fun y => g y =? v) l.
Proof.
  intros v x l Hx; induction l as [|y ys IH]; simpl.
  - rewrite Hx; reflexivity.
  - destruct (cmp y x >? 0); simpl; [rewrite Hx; reflexivity|].
    destruct (g y =? v); [rewrite IH; reflexivity | exact IH].
Qed.

Lemma js_insert_filter_same : forall x l, StronglySorted (cmp_le cmp) l ->
  filter (fun y => g y =? g x) (js_insert cmp x l)
  = filter (fun y => g y =? g x) l ++ [x].
Proof.
  intros x l; induction l as [|y ys IH]; intros Hs; simpl.
  - rewrite Z.eqb_refl; reflexivity.
  - apply StronglySorted_inv in Hs as [Hs Hall].
    destruct (Z.gtb_spec (cmp y x) 0) as [Hgt|Hle].
    + assert (Hnone : forall z, In z (y :: ys) -> (g z =? g x) = false).
      { intros z [<-|Hz]; apply Z.eqb_neq; intros E; apply cmp_eq in E; [lia|].
        rewrite Forall_forall in Hall; specialize (Hall z Hz); unfold cmp_le in Hall.
        destruct (Z.leb_spec (cmp z x) 0) as [Hzx|Hzx]; [|lia].
        pose proof (cmp_trans _ _ _ Hall Hzx); lia. }
      assert (Hf : filter (fun z => g z =? g x) (y :: ys) = []).
      { apply filter_none; exact Hnone. }
      simpl in Hf |- *; rewrite Z.eqb_refl, Hf; reflexivity.
    + simpl; destruct (g y =? g x); [rewrite IH by exact Hs; reflexivity | exact (IH Hs)].
Qed.

Hypothesis cmp_anti : forall a b, cmp b a = - cmp a b.

(** Elements with equal keys keep their relative order. *)
Lemma js_sort_stable : forall v l,
  filter (fun y => g y =? v) (js_sort cmp l) = filter (fun y => g y =? v) l.
Proof.
  intros v l; unfold js_sort.
  assert (H : forall acc, Sorted (cmp_le cmp) acc ->
     filter (fun y => g y =? v) (fold_left (fun acc x => js_insert cmp x acc) l acc)
     = filter (fun y => g y =? v) acc ++ filter (fun y => g y =? v) l).
  { induction l as [|x l IH]; intros acc Hacc; simpl.
    - rewrite app_nil_r; reflexivity.
    - rewrite IH by (apply js_insert_sorted; assumption).
      destruct (Z.eqb_spec (g x) v) as [<-|E].
      + rewrite js_insert_filter_same, <- app_assoc; [reflexivity|].
        apply Sorted_StronglySorted; [intros a b c; apply cmp_trans | exact Hacc].
      + rewrite js_insert_filter_other; [reflexivity|]. apply Z.eqb_neq; exact E. }
  apply H; constructor.
Qed.

End JsSortStable.

(** X21: sorting the enterprise table is stable: with a sort key, rows
    whose sorted counter is equal keep the relative order they have after
    the search filter. *)
Theorem processedData_stable (rows : list EnterpriseTable.EnterpriseStat)
    (t : string) (cfg : TableView.SortConfig) :
  match TableView.key cfg with
  | Some k =>
      forall v,
        filter (fun r => EnterpriseView.sort_value k r =? v)
               (EnterpriseView.processedData rows t cfg)
        = filter (fun r => EnterpriseView.sort_value k r =? v)
                 (TableView.search_filter t rows)
  | None => True
  end.
Proof.
  unfold EnterpriseView.processedData; cbv zeta.
  destruct (TableView.key cfg) as [k|]; [|exact I]; intros v.
  apply (js_sort_stable _ (EnterpriseView.sort_value k)).
  - apply compare_rows_trans.
  - intros a b E; unfold EnterpriseView.compare_rows;
      destruct (TableView.direction cfg); lia.
  - apply compare_rows_anti.
Qed.

(* ================================================================= *)
(** ** Witnesses of the theorems above *)

Lemma drillDown_matches_dailyRow_witness :
  let f := fun _ : Z => "2024/1/10"%string in
  let row := DailyReportTable.mkDaily "2024/1/10"%string 0 7 2 5 0 in
  In row (DailyReportTable.dailyData f (fun _ => 0) scenario) /\
  DailyReportTable.date row <> EmptyString /\
  exists list,
    DrillDown.drillDownData f (Some (DailyReportTable.date row)) scenario
    = Some (DailyReportTable.high row + DailyReportTable.medium row, list).
Proof.
  cbv zeta.
  split; [vm_compute; left; reflexivity|].
  split; [cbn; discriminate|].
  apply (drillDown_matches_dailyRow (fun _ => "2024/1/10"%string) (fun _ => 0) scenario
           (DailyReportTable.mkDaily "2024/1/10"%string 0 7 2 5 0));
    [vm_compute; left; reflexivity | cbn; discriminate].
Defined.

Lemma safetyPie_stats_witness :
  Forall nonneg_count scenario /\
  (let st := SafetyPie.RiskDistributionPie_stats scenario in
   let s := calculateStats scenario in
   SafetyPie.h st = highRiskCount s /\ SafetyPie.m st = mediumRiskCount s /\
   SafetyPie.l st = lowRiskCount s /\
   SafetyPie.total st = SafetyPie.h st + SafetyPie.m st + SafetyPie.l st /\
   (0 <= SafetyPie.safetyRate st <= 100)%Q /\
   Forall (fun e => 0 < Charts.value e) (SafetyPie.pieData st)).
Proof.
  split; [wf_counts|].
  apply safetyPie_stats; wf_counts.
Defined.

Lemma calculateStats_rates_bounded_witness :
  Forall nonneg_count scenario /\
  (let s := calculateStats scenario in
   (0 <= reviewCompletionRate s <= 100)%Q /\ (0 <= highRiskRate s <= 100)%Q /\
   (0 <= accuracyRate s <= 100)%Q).
Proof.
  split; [wf_counts|].
  apply calculateStats_rates_bounded; wf_counts.
Defined.

Lemma calculateStats_order_independent_witness :
  Permutation scenario (rev scenario) /\
  calculateStats scenario = calculateStats (rev scenario).
Proof.
  split; [apply Permutation_rev|].
  apply calculateStats_order_independent; apply Permutation_rev.
Defined.

Lemma calculateStats_outcomes_cover_reviewed_witness :
  Forall (fun d => is_reviewed d = true -> reviewResult d <> ReviewResult.PENDING)
    scenario /\
  (let s := calculateStats scenario in
   trueFraudCount s + suspectedFraudCount s + illegalBusinessCount s
     + falsePositiveCount s = reviewedCount s).
Proof.
  assert (H : Forall (fun d => is_reviewed d = true ->
                               reviewResult d <> ReviewResult.PENDING) scenario)
    by (repeat constructor; cbn; intros H; discriminate).
  split; [exact H | apply calculateStats_outcomes_cover_reviewed; exact H].
Defined.

Lemma createSingleRecord_review_consistent_witness :
  (0 <= 1 # 2 < 1)%Q /\
  (let '(status, result, reviewer) :=
     MockData.createSingleRecord_review RiskLevel.HIGH (1 # 2) (1 # 2) (1 # 2) in
   (status = ReviewStatus.REVIEWED <-> result <> ReviewResult.PENDING) /\
   (status = ReviewStatus.REVIEWED <-> reviewer <> None) /\
   (RiskLevel.HIGH <> RiskLevel.HIGH -> RiskLevel.HIGH <> RiskLevel.MEDIUM ->
      result <> ReviewResult.TRUE_FRAUD /\ result <> ReviewResult.SUSPECTED_FRAUD /\
      result <> ReviewResult.ILLEGAL_BUSINESS)).
Proof.
  assert (H : (0 <= 1 # 2 < 1)%Q) by (unfold Qle, Qlt; simpl; lia).
  split; [exact H|].
  exact (createSingleRecord_review_consistent RiskLevel.HIGH (1 # 2) (1 # 2) (1 # 2) H).
Defined.

Lemma csv_body_reads_back_witness :
  let rows := [enterprise_row "7501556" "A"; enterprise_row "7122191" "B"]%string in
  Forall (fun r =>
       no_char EnterpriseExport.comma (EnterpriseTable.name r)
       && no_char EnterpriseExport.newline (EnterpriseTable.name r)
       && no_char EnterpriseExport.comma (EnterpriseTable.id r)
       && no_char EnterpriseExport.newline (EnterpriseTable.id r) = true) rows /\
  map (split_on EnterpriseExport.comma)
      (split_on EnterpriseExport.newline (EnterpriseExport.csv_body rows))
  = EnterpriseExport.headers ::
    map (fun r =>
           [EnterpriseTable.name r; EnterpriseTable.id r;
            EnterpriseExport.number_to_string (EnterpriseTable.high r);
            EnterpriseExport.number_to_string (EnterpriseTable.medium r);
            EnterpriseExport.number_to_string (EnterpriseTable.low r);
            EnterpriseExport.number_to_string (EnterpriseTable.trueFraud r);
            EnterpriseExport.number_to_string (EnterpriseTable.suspected r);
            EnterpriseExport.number_to_string (EnterpriseTable.illegal r);
            EnterpriseExport.number_to_string (EnterpriseTable.falsePositive r)]) rows.
Proof.
  cbv zeta.
  assert (H : Forall (fun r =>
       no_char EnterpriseExport.comma (EnterpriseTable.name r)
       && no_char EnterpriseExport.newline (EnterpriseTable.name r)
       && no_char EnterpriseExport.comma (EnterpriseTable.id r)
       && no_char EnterpriseExport.newline (EnterpriseTable.id r) = true)
       [enterprise_row "7501556" "A"; enterprise_row "7122191" "B"]%string)
    by (repeat constructor).
  split; [exact H | apply csv_body_reads_back; exact H].
Defined.
